(** * ctxwire: propagation of context values through HTTP headers

    A shallow embedding of the Go package [github.com/trezz/ctxwire] and
    the verification of its propagation protocol: the value propagator,
    the ordered propagator register, the package-level [Inject] and
    [Extract], the error wrapping of [newError], and the transport
    decorators.

    The package is embedded as it stands in [ctxwire.go] and
    [transport.go]; the earlier layout of the same code ([propagator.go],
    [error.go], [json_propagator.go]) is embedded in module [V1].

    Conventions of the embedding:
    - a Go function that can panic returns an [outcome];
    - a Go method that receives the header map, which is shared and
      mutable, is a function in the state monad [M] over the header;
    - a Go result pair [(x, err)] is a Rocq pair whose second component
      is [option error], [None] being the nil error;
    - the register's mutex is not modelled: every call is sequential. *)

From Stdlib Require Import ZArith NArith List Lia.
From Stdlib.Strings Require Import Ascii String Byte.
From Stdlib Require Import DecimalString.
From stdpp Require Import base option gmap strings list.

Local Open Scope string_scope.
Local Open Scope list_scope.

(** ** Outcomes of Go calls *)

Inductive outcome (A : Type) : Type :=
| Returns (a : A)
| Panics.
Arguments Returns {A} a.
Arguments Panics {A}.

Definition obind {A B} (o : outcome A) (k : A -> outcome B) : outcome B :=
  match o with
  | Returns a => k a
  | Panics => Panics
  end.

(** ** Go values that travel in a context *)

(** The dynamic values the development stores under context keys.  [Nil] is
    the nil interface value; [Other] stands for any value of a named type
    whose content the package never inspects (a struct, a function). *)
Inductive any : Type :=
| Nil
| Bool (b : bool)
| Str (s : string)
| Other (type_name : string) (id : N).

(** Context keys: comparable, non-nil values; a key is identified by a
    string (for instance the name of its zero-size struct type). *)
Definition Key := string.

(** A Go byte slice. *)
Definition bytes := list byte.

Definition bytes_of_string (s : string) : bytes := map byte_of_ascii (list_ascii_of_string s).
Definition string_of_bytes (b : bytes) : string := string_of_list_ascii (map ascii_of_byte b).

(** ** Errors *)

(** The error values the package can meet: a leaf error carrying its text
    ([errors.New], or any error of another package without [Unwrap]),
    base64's [CorruptInputError], an error of another package that wraps a
    cause ([fmt.Errorf] with the [%w] verb), and the package's own
    [*Error]. *)
Inductive error : Type :=
| errorString (s : string)
| CorruptInputError (offset : Z)
| wrapError (msg : string) (err : error)
| Error (message : string) (err : error).

Module errors.
(** [errors.New]. *)
Definition New (s : string) : error := errorString s.

(** [errors.Unwrap]. *)
Definition Unwrap (e : error) : option error :=
  match e with
  | wrapError _ e' => Some e'
  | Error _ e' => Some e'
  | _ => None
  end.

(** [errors.As(err, &target)] for a target of type [*Error]: is there an
    [*Error] on the [Unwrap] chain of [err]. *)
Fixpoint As (e : error) : bool :=
  match e with
  | Error _ _ => true
  | wrapError _ e' => As e'
  | _ => false
  end.

(** The [Unwrap] chain of an error, the error itself first. *)
Fixpoint chain (e : error) : list error :=
  e :: match e with
       | wrapError _ e' => chain e'
       | Error _ e' => chain e'
       | _ => []
       end.
End errors.

(** ** encoding/base64, the standard encoding with padding *)

Module base64.
Definition encodeStd : string :=
  "ABCDEFGHIJKLMNOPQRSTUVWXYZabcdefghijklmnopqrstuvwxyz0123456789+/".
Definition StdPadding : ascii := "="%char.

(** [enc.encode[v&0x3F]] *)
Definition encode (v : N) : ascii :=
  default StdPadding (String.get (N.to_nat (N.land v 63)) encodeStd).

Fixpoint indexByte (s : string) (c : ascii) (i : N) : option N :=
  match s with
  | EmptyString => None
  | String c' s' => if Ascii.eqb c' c then Some i else indexByte s' c (N.succ i)
  end.

(** [enc.decodeMap[in]], [None] standing for the entry 0xff. *)
Definition decodeMap (c : ascii) : option N := indexByte encodeStd c 0.

(** The conversion [byte(v)] of an unsigned integer. *)
Definition byte_of_uint (v : N) : byte :=
  default x00 (Byte.of_N (N.land v 255)).

Definition uint (b : byte) : N := Byte.to_N b.

(** [EncodeToString]: three bytes make four characters, the remainder is
    padded. *)
Fixpoint EncodeToString (src : bytes) : string :=
  match src with
  | [] => ""
  | [a] =>
      let val := N.shiftl (uint a) 16 in
      String (encode (N.shiftr val 18))
        (String (encode (N.shiftr val 12))
           (String StdPadding (String StdPadding "")))
  | [a; b] =>
      let val := N.lor (N.shiftl (uint a) 16) (N.shiftl (uint b) 8) in
      String (encode (N.shiftr val 18))
        (String (encode (N.shiftr val 12))
           (String (encode (N.shiftr val 6)) (String StdPadding "")))
  | a :: b :: c :: rest =>
      let val := N.lor (N.lor (N.shiftl (uint a) 16) (N.shiftl (uint b) 8)) (uint c) in
      String (encode (N.shiftr val 18))
        (String (encode (N.shiftr val 12))
           (String (encode (N.shiftr val 6))
              (String (encode val) (EncodeToString rest))))
  end.

Definition isNewline (c : ascii) : bool :=
  Ascii.eqb c "010"%char || Ascii.eqb c "013"%char.

(** Skip over newlines: the remaining input and the position reached. *)
Fixpoint skipNewlines (src : string) (si : Z) : string * Z :=
  match src with
  | String c rest => if isNewline c then skipNewlines rest (si + 1) else (src, si)
  | EmptyString => (src, si)
  end.

(** The bytes of one quantum: [dlen] six-bit values give [dlen - 1]
    bytes. *)
Definition quantum (dbuf : list N) : bytes :=
  let val := N.lor (N.lor (N.lor (N.shiftl (nth 0 dbuf 0%N) 18)
                                 (N.shiftl (nth 1 dbuf 0%N) 12))
                          (N.shiftl (nth 2 dbuf 0%N) 6))
                   (nth 3 dbuf 0%N) in
  take (length dbuf - 1)
    [byte_of_uint (N.shiftr val 16); byte_of_uint (N.shiftr val 8); byte_of_uint val].

(** The decoding loop of [Decode], quantum after quantum; [dbuf] holds the
    six-bit values read so far in the current quantum and [si] is the
    position in the input.  The result is the decoded bytes (as far as
    decoding went) and the error. *)
Fixpoint decode (src : string) (si : Z) (dbuf : list N) : bytes * option error :=
  match src with
  | EmptyString =>
      match dbuf with
      | [] => ([], None)
      | _ => ([], Some (CorruptInputError (si - Z.of_nat (length dbuf))))
      end
  | String c rest =>
      let si := (si + 1)%Z in
      match decodeMap c with
      | Some out =>
          let dbuf := dbuf ++ [out] in
          if Nat.eqb (length dbuf) 4
          then let '(d, e) := decode rest si [] in (quantum dbuf ++ d, e)
          else decode rest si dbuf
      | None =>
          if isNewline c then decode rest si dbuf
          else if negb (Ascii.eqb c StdPadding) then ([], Some (CorruptInputError (si - 1)))
          else
            match length dbuf with
            | 0%nat | 1%nat => ([], Some (CorruptInputError (si - 1)))
            | 2%nat =>
                let '(rest1, si1) := skipNewlines rest si in
                match rest1 with
                | EmptyString => ([], Some (CorruptInputError si1))
                | String c1 rest2 =>
                    if negb (Ascii.eqb c1 StdPadding)
                    then ([], Some (CorruptInputError (si1 - 1)))
                    else
                      let '(rest3, si3) := skipNewlines rest2 (si1 + 1) in
                      match rest3 with
                      | EmptyString => (quantum dbuf, None)
                      | _ => (quantum dbuf, Some (CorruptInputError si3))
                      end
                end
            | _ =>
                let '(rest3, si3) := skipNewlines rest si in
                match rest3 with
                | EmptyString => (quantum dbuf, None)
                | _ => (quantum dbuf, Some (CorruptInputError si3))
                end
            end
      end
  end.

Definition DecodeString (s : string) : bytes * option error := decode s 0 [].
End base64.

(** ** context *)

Module context.
(** A non-nil context: [Background()] extended by [WithValue]. *)
Inductive chain : Type :=
| background
| valueCtx (parent : chain) (key : Key) (val : any).

(** [context.Context]; [None] is the nil interface value. *)
Definition Context : Type := option chain.

Definition Background : Context := Some background.

(** [c.Value(key)] on a non-nil context. *)
Fixpoint value (c : chain) (key : Key) : any :=
  match c with
  | background => Nil
  | valueCtx parent k v => if String.eqb k key then v else value parent key
  end.

(** Is [key] bound by some [WithValue] of the chain. *)
Fixpoint bound (c : chain) (key : Key) : bool :=
  match c with
  | background => false
  | valueCtx parent k _ => String.eqb k key || bound parent key
  end.

(** [ctx.Value(key)]; calling a method of the nil interface panics. *)
Definition Value (ctx : Context) (key : Key) : outcome any :=
  match ctx with
  | Some c => Returns (value c key)
  | None => Panics
  end.

(** [context.WithValue(parent, key, val)]; a nil parent panics. *)
Definition WithValue (parent : Context) (key : Key) (val : any) : outcome Context :=
  match parent with
  | Some c => Returns (Some (valueCtx c key val))
  | None => Panics
  end.
End context.

(** ** net/textproto and net/http: the header map *)

Module textproto.
Definition isLower (c : ascii) : bool :=
  (97 <=? N_of_ascii c)%N && (N_of_ascii c <=? 122)%N.
Definition isUpper (c : ascii) : bool :=
  (65 <=? N_of_ascii c)%N && (N_of_ascii c <=? 90)%N.
Definition isDigit (c : ascii) : bool :=
  (48 <=? N_of_ascii c)%N && (N_of_ascii c <=? 57)%N.
Definition toLower : N := 32.

(** The token characters of RFC 7230. *)
Definition validHeaderFieldByte (c : ascii) : bool :=
  isLower c || isUpper c || isDigit c
  || existsb (Ascii.eqb c) (list_ascii_of_string "!#$%&'*+-.^_`|~").

(** First letter and every letter after a dash in upper case, the others
    in lower case. *)
Fixpoint canonicalize (upper : bool) (a : string) : string :=
  match a with
  | EmptyString => EmptyString
  | String c rest =>
      let c :=
        if upper && isLower c then ascii_of_N (N_of_ascii c - toLower)
        else if negb upper && isUpper c then ascii_of_N (N_of_ascii c + toLower)
        else c in
      String c (canonicalize (Ascii.eqb c "-"%char) rest)
  end.

(** [CanonicalMIMEHeaderKey]: a key holding a byte that is not a token
    character is returned unchanged. *)
Definition CanonicalMIMEHeaderKey (s : string) : string :=
  if forallb validHeaderFieldByte (list_ascii_of_string s)
  then canonicalize true s
  else s.
End textproto.

Module http.
(** [http.Header], a [map[string][]string]. *)
Abbreviation Header := (gmap string (list string)).

(** [h.Get(key)]: the first value under the canonical key, or the empty
    string. *)
Definition Header_Get (h : Header) (key : string) : string :=
  match h !! textproto.CanonicalMIMEHeaderKey key with
  | Some (v :: _) => v
  | _ => ""
  end.

(** [h.Set(key, value)]: the canonical key now holds the single value. *)
Definition Header_Set (h : Header) (key value : string) : Header :=
  <[textproto.CanonicalMIMEHeaderKey key := [value]]> h.

(** [http.Request], the fields the package reads, and what is left of
    the request as [Method] and [URL]. *)
Record Request : Type := Build_Request {
  Request_Method : string;
  Request_URL : string;
  Request_Header : Header;
  Request_ctx : context.Context
}.

(** [r.Context()]: the background context when [r.ctx] is nil. *)
Definition Request_Context (r : Request) : context.Context :=
  match Request_ctx r with
  | Some c => Some c
  | None => context.Background
  end.

(** [r.WithContext(ctx)]: a copy of [r] with its context changed; a nil
    [ctx] panics. *)
Definition Request_WithContext (r : Request) (ctx : context.Context) : outcome Request :=
  match ctx with
  | None => Panics
  | Some c => Returns (Build_Request (Request_Method r) (Request_URL r) (Request_Header r) (Some c))
  end.

Record Response : Type := Build_Response {
  Response_StatusCode : Z;
  Response_Header : Header;
  Response_Body : bytes
}.

(** The interface [http.RoundTripper].  [RoundTrip] receives a pointer to
    the request: the request as the call leaves it is part of the
    result. *)
Definition RoundTripper : Type :=
  Request -> outcome ((option Response * option error) * Request).
End http.

(** ** The state monad over the header carrier *)

Definition M (A : Type) : Type := http.Header -> outcome (A * http.Header).

Definition ret {A} (a : A) : M A := fun h => Returns (a, h).

Definition bind {A B} (m : M A) (k : A -> M B) : M B :=
  fun h => match m h with
           | Returns (a, h') => k a h'
           | Panics => Panics
           end.

(** A call that does not receive the header. *)
Definition call {A} (o : outcome A) : M A :=
  fun h => match o with
           | Returns a => Returns (a, h)
           | Panics => Panics
           end.

Definition get (key : string) : M string := fun h => Returns (http.Header_Get h key, h).
Definition set (key value : string) : M unit := fun h => Returns (tt, http.Header_Set h key value).

Declare Scope go_scope.
Delimit Scope go_scope with go.
Notation "'let*' x ':=' m 'in' k" := (bind m (fun x => k))
  (at level 10, x pattern, m at level 100, k at level 200,
   format "'[v' 'let*'  x  ':='  m  'in' '/' k ']'") : go_scope.
Local Open Scope go_scope.

(** ** encoding/json *)

(** [json.Marshal] and [json.Unmarshal] into a variable of type [any] (the
    value left in the variable, and the error), taken as they come. *)
Module json.
Class Codec : Type := {
  Marshal : any -> bytes * option error;
  Unmarshal : bytes -> any * option error
}.
End json.


(** ** ctxwire.go *)

(** The [Error()] method of an error value.  For [*Error] it is
    [fmt.Sprintf("%s: %s", e.message, e.err.Error())]. *)
Fixpoint Error_Error (e : error) : string :=
  match e with
  | errorString s => s
  | CorruptInputError offset =>
      "illegal base64 data at input byte " ++ NilZero.string_of_int (Z.to_int offset)
  | wrapError msg _ => msg
  | Error message err => message ++ ": " ++ Error_Error err
  end.

(** The [Unwrap] method of [*Error]. *)
Definition Error_Unwrap (e : error) : option error :=
  match e with
  | Error _ err => Some err
  | _ => None
  end.

(** [newError]: an error that already carries an [*Error] is returned as it
    is. *)
Definition newError (message : string) (err : error) : error :=
  if errors.As err then err else Error message err.

(** The interface [Propagator]. *)
Module Propagator.
Record t : Type := Build {
  Inject : context.Context -> M (option error);
  Extract : context.Context -> M (context.Context * option error)
}.
End Propagator.

(** The interfaces [Encoder] and [Decoder], and their function adapters. *)
Definition Encoder : Type := context.Context -> Key -> outcome (bytes * option error).
Definition Decoder : Type :=
  context.Context -> Key -> bytes -> outcome (context.Context * option error).
Definition EncoderFunc (f : context.Context -> Key -> outcome (bytes * option error)) : Encoder := f.
Definition DecoderFunc
  (f : context.Context -> Key -> bytes -> outcome (context.Context * option error)) : Decoder := f.

Definition encodeJSON `{json.Codec} (ctx : context.Context) (key : Key)
  : outcome (bytes * option error) :=
  obind (context.Value ctx key) (fun v =>
  match v with
  | Nil => Returns ([], None)
  | _ => Returns (json.Marshal v)
  end).

Definition decodeJSON `{json.Codec} (ctx : context.Context) (key : Key) (data : bytes)
  : outcome (context.Context * option error) :=
  match json.Unmarshal data with
  | (_, Some err) => Returns (None, Some err)
  | (v, None) => obind (context.WithValue ctx key v) (fun c => Returns (c, None))
  end.

Definition headerKey (name : string) : string := "x-ctxwire-" ++ name.

Module ValuePropagator.
Record t : Type := Build {
  name : string;
  contextKey : Key;
  encoder : Encoder;
  decoder : Decoder
}.

Definition Inject (p : t) (ctx : context.Context) : M (option error) :=
  let* (data, err) := call (encoder p ctx (contextKey p)) in
  match err with
  | Some err => ret (Some (newError "encode context value" err))
  | None =>
      if Nat.eqb (length data) 0 then ret None
      else
        let* _ := set (headerKey (name p)) (base64.EncodeToString data) in
        ret None
  end.

Definition Extract (p : t) (ctx : context.Context) : M (context.Context * option error) :=
  let* vStr := get (headerKey (name p)) in
  if String.eqb vStr "" then ret (ctx, None)
  else
    let '(v, err) := base64.DecodeString vStr in
    match err with
    | Some err => ret (None, Some (newError "base64 decode context value" err))
    | None =>
        let* (newCtx, err) := call (decoder p ctx (contextKey p) v) in
        match err with
        | Some err => ret (None, Some (newError "decode context value" err))
        | None => ret (newCtx, None)
        end
    end.

(** [*ValuePropagator] implements [Propagator]. *)
Definition asPropagator (p : t) : Propagator.t :=
  Propagator.Build (Inject p) (Extract p).
End ValuePropagator.

Definition NewValuePropagator (name : string) (contextKey : Key)
  (encoder : Encoder) (decoder : Decoder) : ValuePropagator.t :=
  ValuePropagator.Build name contextKey encoder decoder.

Definition NewJSONPropagator `{json.Codec} (name : string) (contextKey : Key)
  : ValuePropagator.t :=
  NewValuePropagator name contextKey (EncoderFunc encodeJSON) (DecoderFunc decodeJSON).

Module propagatorRegister.
Record t : Type := Build { propagators : list Propagator.t }.

Definition add (r : t) (ps : list Propagator.t) : t :=
  Build (propagators r ++ ps).

(** The loop of [Inject] over the propagators still to run. *)
Fixpoint Inject_range (ps : list Propagator.t) (ctx : context.Context) : M (option error) :=
  match ps with
  | [] => ret None
  | p :: ps =>
      let* err := Propagator.Inject p ctx in
      match err with
      | Some err => ret (Some err)
      | None => Inject_range ps ctx
      end
  end.

Definition Inject (r : t) (ctx : context.Context) : M (option error) :=
  Inject_range (propagators r) ctx.

(** The loop of [Extract]: [ctx] is reassigned at every turn. *)
Fixpoint Extract_range (ps : list Propagator.t) (ctx : context.Context)
  : M (context.Context * option error) :=
  match ps with
  | [] => ret (ctx, None)
  | p :: ps =>
      let* (ctx, err) := Propagator.Extract p ctx in
      match err with
      | Some err => ret (None, Some err)
      | None => Extract_range ps ctx
      end
  end.

Definition Extract (r : t) (ctx : context.Context) : M (context.Context * option error) :=
  Extract_range (propagators r) ctx.

(** [*propagatorRegister] implements [Propagator]. *)
Definition asPropagator (r : t) : Propagator.t :=
  Propagator.Build (Inject r) (Extract r).
End propagatorRegister.

(** [Configure]; the package variable [register] is passed explicitly. *)
Definition Configure (register : propagatorRegister.t) (propagators : list Propagator.t)
  : propagatorRegister.t :=
  propagatorRegister.add register propagators.

Definition Inject (register : propagatorRegister.t) (ctx : context.Context)
  : M (option error) :=
  let* err := propagatorRegister.Inject register ctx in
  match err with
  | Some err => ret (Some (newError "inject context values" err))
  | None => ret None
  end.

Definition Extract (register : propagatorRegister.t) (ctx : context.Context)
  : M (context.Context * option error) :=
  let* (newCtx, err) := propagatorRegister.Extract register ctx in
  match err with
  | Some err => ret (None, Some (newError "extract context values" err))
  | None => ret (newCtx, None)
  end.

(** ** transport.go *)

Module extractTransport.
Definition RoundTrip (register : propagatorRegister.t) (m : http.RoundTripper)
  (req : http.Request) : outcome ((option http.Response * option error) * http.Request) :=
  obind (m req) (fun '((resp, err), req) =>
  match err with
  | Some err => Returns ((None, Some err), req)
  | None =>
      match resp with
      | None => Panics
      | Some resp =>
          obind (Extract register (http.Request_Context req) (http.Response_Header resp))
            (fun '((ctx, err), h) =>
             let resp := http.Build_Response (http.Response_StatusCode resp) h
                           (http.Response_Body resp) in
             match err with
             | Some err => Returns ((Some resp, Some err), req)
             | None =>
                 obind (http.Request_WithContext req ctx) (fun req =>
                 Returns ((Some resp, None), req))
             end)
      end
  end).
End extractTransport.

Definition ExtractTransport (register : propagatorRegister.t) (t : http.RoundTripper)
  : http.RoundTripper :=
  extractTransport.RoundTrip register t.

Module injectTransport.
Definition RoundTrip (register : propagatorRegister.t) (m : http.RoundTripper)
  (req : http.Request) : outcome ((option http.Response * option error) * http.Request) :=
  obind (Inject register (http.Request_Context req) (http.Request_Header req))
    (fun '(err, h) =>
     let req := http.Build_Request (http.Request_Method req) (http.Request_URL req) h
                  (http.Request_ctx req) in
     match err with
     | Some err => Returns ((None, Some err), req)
     | None => m req
     end).
End injectTransport.

Definition InjectTransport (register : propagatorRegister.t) (t : http.RoundTripper)
  : http.RoundTripper :=
  injectTransport.RoundTrip register t.

Definition Transport (register : propagatorRegister.t) (t : http.RoundTripper)
  : http.RoundTripper :=
  InjectTransport register (ExtractTransport register t).

(** ** propagator.go, error.go, json_propagator.go: the earlier layout *)

Module V1.
(** [newError] of error.go always wraps. *)
Definition newError (message : string) (err : error) : error :=
  Error message err.

Definition jsonEncoder `{json.Codec} (ctx : context.Context) (key : Key)
  : outcome (bytes * option error) :=
  obind (context.Value ctx key) (fun v =>
  match v with
  | Nil => Returns ([], None)
  | _ => Returns (json.Marshal v)
  end).

Definition jsonDecoder `{json.Codec} (ctx : context.Context) (key : Key) (data : bytes)
  : outcome (context.Context * option error) :=
  match json.Unmarshal data with
  | (_, Some err) => Returns (None, Some err)
  | (v, None) => obind (context.WithValue ctx key v) (fun c => Returns (c, None))
  end.

Module propagator.
Record t : Type := Build {
  name : string;
  contextKey : Key;
  encoder : Encoder;
  decoder : Decoder
}.

Definition Inject (p : t) (ctx : context.Context) : M (option error) :=
  let* (data, err) := call (encoder p ctx (contextKey p)) in
  match err with
  | Some err => ret (Some err)
  | None =>
      if Nat.eqb (length data) 0 then ret None
      else
        let* _ := set (headerKey (name p)) (base64.EncodeToString data) in
        ret None
  end.

Definition Extract (p : t) (ctx : context.Context) : M (context.Context * option error) :=
  let* vStr := get (headerKey (name p)) in
  if String.eqb vStr "" then ret (ctx, None)
  else
    let '(v, err) := base64.DecodeString vStr in
    match err with
    | Some err => ret (None, Some err)
    | None => call (decoder p ctx (contextKey p) v)
    end.

Definition asPropagator (p : t) : Propagator.t :=
  Propagator.Build (Inject p) (Extract p).
End propagator.

Definition NewPropagator (name : string) (contextKey : Key)
  (encoder : Encoder) (decoder : Decoder) : Propagator.t :=
  propagator.asPropagator (propagator.Build name contextKey encoder decoder).

Definition NewJSONPropagator `{json.Codec} (name : string) (contextKey : Key) : Propagator.t :=
  NewPropagator name contextKey (EncoderFunc jsonEncoder) (DecoderFunc jsonDecoder).

(** The register of propagator.go has the text of the one of ctxwire.go:
    [propagatorRegister] serves both. *)
Definition Inject (register : propagatorRegister.t) (ctx : context.Context)
  : M (option error) :=
  let* err := propagatorRegister.Inject register ctx in
  match err with
  | Some err => ret (Some (newError "inject context into header" err))
  | None => ret None
  end.

Definition Extract (register : propagatorRegister.t) (ctx : context.Context)
  : M (context.Context * option error) :=
  let* (newCtx, err) := propagatorRegister.Extract register ctx in
  match err with
  | Some err => ret (None, Some (newError "extract context from header" err))
  | None => ret (newCtx, None)
  end.
End V1.

(** ** ctxwire_test.go: the codecs of [TestError] *)

Module ctxwire_test.
Definition keyEncode : Key := "encodeKey".
Definition keyDecode : Key := "decodeKey".

Definition errEncoder (ctx : context.Context) (key : Key) : outcome (bytes * option error) :=
  obind (context.Value ctx key) (fun v =>
  match v with
  | Nil => Returns ([], None)
  | _ => Returns ([], Some (errors.New "failed!"))
  end).

Definition errDecoder (_ : context.Context) (_ : Key) (_ : bytes)
  : outcome (context.Context * option error) :=
  Returns (None, Some (errors.New "failed!")).

(** The propagators [TestError] configures. *)
Definition propagators `{json.Codec} : list Propagator.t :=
  [ ValuePropagator.asPropagator
      (NewValuePropagator "encode" keyEncode (EncoderFunc errEncoder) (DecoderFunc decodeJSON));
    ValuePropagator.asPropagator
      (NewValuePropagator "decode" keyDecode (EncoderFunc encodeJSON) (DecoderFunc errDecoder)) ].
End ctxwire_test.

(** ** Codecs and carriers used in worked examples *)

Module examples.
(** A codec of its own, as [EncoderFunc] and [DecoderFunc] accept: the
    payload of a string value is its bytes. *)
Definition rawEncoder (ctx : context.Context) (key : Key) : outcome (bytes * option error) :=
  obind (context.Value ctx key) (fun v =>
  match v with
  | Str s => Returns (bytes_of_string s, None)
  | _ => Returns ([], None)
  end).

Definition rawDecoder (ctx : context.Context) (key : Key) (data : bytes)
  : outcome (context.Context * option error) :=
  obind (context.WithValue ctx key (Str (string_of_bytes data))) (fun c => Returns (c, None)).

(** A decoder that reads the value another propagator stored under
    ["userKey"] and greets it. *)
Definition greetDecoder (ctx : context.Context) (key : Key) (data : bytes)
  : outcome (context.Context * option error) :=
  obind (context.Value ctx "userKey") (fun u =>
  match u with
  | Str user =>
      obind (context.WithValue ctx key (Str (string_of_bytes data ++ user)))
        (fun c => Returns (c, None))
  | _ => Returns (None, Some (errors.New "no user"))
  end).

(** A propagator that panics whenever it is called. *)
Definition panicking : Propagator.t :=
  Propagator.Build (fun _ _ => Panics) (fun _ _ => Panics).

(** A propagator of another kind than [ValuePropagator]: it refuses every
    call with an error of its own. *)
Definition refusing : Propagator.t :=
  Propagator.Build
    (fun _ => ret (Some (errors.New "refused")))
    (fun _ => ret (None, Some (errors.New "refused"))).

Definition quote : ascii := "034"%char.

Definition plain (c : ascii) : bool :=
  (32 <=? N_of_ascii c)%N && (N_of_ascii c <=? 126)%N
  && negb (existsb (Ascii.eqb c) [quote; "\"%char; "<"%char; ">"%char; "&"%char]).

Fixpoint unquote (s : string) : option string :=
  match s with
  | EmptyString => None
  | String c EmptyString => if Ascii.eqb c quote then Some EmptyString else None
  | String c rest => if plain c then option_map (String c) (unquote rest) else None
  end.

(** An instance of the JSON codec on the literals and the strings of
    plain characters, the part of encoding/json the examples run; a value
    or a document outside of it is reported as an error. *)
#[local] Instance literals : json.Codec := {|
  json.Marshal v :=
    match v with
    | Nil => (bytes_of_string "null", None)
    | Bool true => (bytes_of_string "true", None)
    | Bool false => (bytes_of_string "false", None)
    | Str s =>
        if forallb plain (list_ascii_of_string s)
        then (bytes_of_string (String quote (s ++ String quote EmptyString)), None)
        else ([], Some (errorString "json: string outside the literals"))
    | Other t _ => ([], Some (errorString ("json: unsupported type: " ++ t)))
    end;
  json.Unmarshal data :=
    let doc := string_of_bytes data in
    if String.eqb doc "null" then (Nil, None)
    else if String.eqb doc "true" then (Bool true, None)
    else if String.eqb doc "false" then (Bool false, None)
    else
      match doc with
      | String c rest =>
          match (if Ascii.eqb c quote then unquote rest else None) with
          | Some s => (Str s, None)
          | None => (Nil, Some (errorString "invalid character"))
          end
      | EmptyString => (Nil, Some (errorString "unexpected end of JSON input"))
      end
|}.

(** The header carrier with one field. *)
Definition carrier (key value : string) : http.Header :=
  http.Header_Set ∅ key value.

(** The propagators of the tests, on the literals. *)
Definition strPropagator : ValuePropagator.t := @NewJSONPropagator literals "str" "strKey".
Definition encodePropagator : ValuePropagator.t :=
  NewValuePropagator "encode" ctxwire_test.keyEncode
    (EncoderFunc ctxwire_test.errEncoder) (DecoderFunc (@decodeJSON literals)).
Definition decodePropagator : ValuePropagator.t :=
  NewValuePropagator "decode" ctxwire_test.keyDecode
    (EncoderFunc (@encodeJSON literals)) (DecoderFunc ctxwire_test.errDecoder).
Definition rawPropagator : ValuePropagator.t :=
  NewValuePropagator "raw" "rawKey" (EncoderFunc rawEncoder) (DecoderFunc rawDecoder).
Definition userPropagator : ValuePropagator.t := @NewJSONPropagator literals "user" "userKey".
Definition greetPropagator : ValuePropagator.t :=
  NewValuePropagator "greet" "greetKey" (EncoderFunc rawEncoder) (DecoderFunc greetDecoder).

(** The propagators of the earlier layout. *)
Definition strPropagatorV1 : V1.propagator.t :=
  V1.propagator.Build "str" "strKey"
    (EncoderFunc (@V1.jsonEncoder literals)) (DecoderFunc (@V1.jsonDecoder literals)).
Definition decodePropagatorV1 : V1.propagator.t :=
  V1.propagator.Build "decode" ctxwire_test.keyDecode
    (EncoderFunc (@V1.jsonEncoder literals)) (DecoderFunc ctxwire_test.errDecoder).

(** The register of [TestError]. *)
Definition testError : propagatorRegister.t :=
  Configure (propagatorRegister.Build []) (@ctxwire_test.propagators literals).

(** Contexts: [str] is ["foo"]; [str] and [encode] are ["foo"]; [decode]
    is ["bar"]; [raw] is the empty string. *)
Definition fooCtx : context.Context :=
  Some (context.valueCtx context.background "strKey" (Str "foo")).
Definition fooEncodeCtx : context.Context :=
  Some (context.valueCtx (context.valueCtx context.background "strKey" (Str "foo"))
          ctxwire_test.keyEncode (Str "foo")).
Definition encodeCtx : context.Context :=
  Some (context.valueCtx context.background ctxwire_test.keyEncode (Str "foo")).
Definition emptyRawCtx : context.Context :=
  Some (context.valueCtx context.background "rawKey" (Str "")).

(** The JSON documents ["foo"] and ["bar"], and their base64 text. *)
Definition fooJSON : bytes := bytes_of_string (String quote ("foo" ++ String quote "")).
Definition barJSON : bytes := bytes_of_string (String quote ("bar" ++ String quote "")).
Definition annJSON : bytes := bytes_of_string (String quote ("ann" ++ String quote "")).

(** Carriers: the field of [str]; the fields of [str] and [decode]; a
    field of [str] that is not base64; the fields of [user] and
    [greet]. *)
Definition fooHeader : http.Header :=
  carrier "x-ctxwire-str" (base64.EncodeToString fooJSON).
Definition fooBarHeader : http.Header :=
  http.Header_Set fooHeader "x-ctxwire-decode" (base64.EncodeToString barJSON).
Definition barHeader : http.Header :=
  carrier "x-ctxwire-decode" (base64.EncodeToString barJSON).
Definition brokenHeader : http.Header := carrier "x-ctxwire-str" "!foo".
Definition greetHeader : http.Header :=
  http.Header_Set (carrier "x-ctxwire-user" (base64.EncodeToString annJSON))
    "x-ctxwire-greet" (base64.EncodeToString (bytes_of_string "hello ")).

(** A carrier holding a header that is not of the package. *)
Definition plainHeader : http.Header := carrier "Content-Type" "text/plain".

(** A context where nil was stored over ["foo"]. *)
Definition nilOverFoo : context.chain :=
  context.valueCtx (context.valueCtx context.background "strKey" (Str "foo")) "strKey" Nil.

Definition threeOnExtract : propagatorRegister.t :=
  propagatorRegister.Build
    [ValuePropagator.asPropagator strPropagator;
     ValuePropagator.asPropagator decodePropagator; panicking].
Definition threeOnInject : propagatorRegister.t :=
  propagatorRegister.Build
    [ValuePropagator.asPropagator strPropagator;
     ValuePropagator.asPropagator encodePropagator; panicking].

(** A request, a response, and exchange primitives that answer with the
    response or fail. *)
Definition request : http.Request :=
  http.Build_Request "GET" "http://search/" ∅ fooCtx.
Definition response (h : http.Header) : http.Response :=
  http.Build_Response 200 h (bytes_of_string "OK").
Definition answering (h : http.Header) : http.RoundTripper :=
  fun req => Returns ((Some (response h), None), req).
Definition unreachable : http.RoundTripper :=
  fun req => Returns ((None, Some (errors.New "connection refused")), req).
End examples.

(** ** Notions used to state the properties *)

(** The contract of an encoder on a key without value: a zero-length
    payload and no error. *)
Definition silent_on_absence (enc : Encoder) : Prop :=
  forall (c : context.chain) (key : Key),
    context.value c key = Nil -> enc (Some c) key = Returns ([], None).

(** A decoder that, on a context that is not nil, returns, and returns a
    context that is not nil when it returns no error. *)
Definition decoder_returns (dec : Decoder) (key : Key) : Prop :=
  forall (c : context.chain) (v : bytes),
    (exists err newCtx, dec (Some c) key v = Returns (newCtx, Some err))
    \/ (exists c', dec (Some c) key v = Returns (Some c', None)).

(** The round trip of the value [v]: Inject of [ctx] into the empty carrier
    goes through, and Extract from that carrier into [ctx0] goes through
    and returns a context with [v] under the propagator's key. *)
Definition round_trip (p : ValuePropagator.t) (ctx ctx0 : context.Context) (v : any) : Prop :=
  exists h ctx',
    ValuePropagator.Inject p ctx ∅ = Returns (None, h)
    /\ ValuePropagator.Extract p ctx0 h = Returns ((ctx', None), h)
    /\ context.Value ctx' (ValuePropagator.contextKey p) = Returns v.

(** Does an error carry [label]: is there an [*Error] with this message on
    its [Unwrap] chain. *)
Definition has_label (label : string) (e : error) : bool :=
  existsb (fun x => match x with
                    | Error message _ => String.eqb message label
                    | _ => false
                    end) (errors.chain e).

(** ** Further notions and worked examples *)

(** What a call in [M] returns, the header left aside. *)
Definition result {A} (o : outcome (A * http.Header)) : outcome A :=
  match o with
  | Returns (a, _) => Returns a
  | Panics => Panics
  end.

(** A series of [h.Set] calls, first to last. *)
Definition write_all (ws : list (string * string)) (h : http.Header) : http.Header :=
  fold_left (fun h kv => http.Header_Set h (fst kv) (snd kv)) ws h.

(** The canonical field of a value propagator in the header map. *)
Definition field_of (p : ValuePropagator.t) : string :=
  textproto.CanonicalMIMEHeaderKey (headerKey (ValuePropagator.name p)).

(** Lower case of an ASCII letter, and of a name. *)
Definition lowerByte (c : ascii) : ascii :=
  if textproto.isUpper c then ascii_of_N (N_of_ascii c + textproto.toLower) else c.

Fixpoint lowerString (s : string) : string :=
  match s with
  | EmptyString => EmptyString
  | String c rest => String (lowerByte c) (lowerString rest)
  end.

(** The 256 bytes. *)
Definition all_ascii : list ascii := map ascii_of_nat (seq 0 256).

(** The JSON propagators of a list of names and keys. *)
Definition jsonPropagators `{json.Codec} (nks : list (string * Key)) : list ValuePropagator.t :=
  map (fun nk => NewJSONPropagator (fst nk) (snd nk)) nks.

(** A value that [json.Marshal] turns into a document, not empty, that
    [json.Unmarshal] turns back into the value. *)
Definition round_trips `{json.Codec} (v : any) : Prop :=
  exists d, json.Marshal v = (d, None) /\ d <> [] /\ json.Unmarshal d = (v, None).

Module samples.
(** The register of the back-propagation test, JSON propagators only. *)
Definition strInt : list ValuePropagator.t :=
  [examples.strPropagator; @NewJSONPropagator examples.literals "int" "intKey"].

(** A propagator named as ["str"] but for the case of its letters. *)
Definition upperPropagator : ValuePropagator.t :=
  NewValuePropagator "STR" "rawKey" (EncoderFunc examples.rawEncoder)
    (DecoderFunc examples.rawDecoder).

(** A decoder that returns neither a context nor an error. *)
Definition voidDecoder (_ : context.Context) (_ : Key) (_ : bytes)
  : outcome (context.Context * option error) :=
  Returns (None, None).
Definition voidPropagator : ValuePropagator.t :=
  NewValuePropagator "decode" ctxwire_test.keyDecode
    (EncoderFunc (@encodeJSON examples.literals)) (DecoderFunc voidDecoder).


(** An exchange primitive that returns neither a response nor an error. *)
Definition voidTripper : http.RoundTripper := fun req => Returns ((None, None), req).

(** A context with ["foo"] under [strKey] and ["raw"] under [rawKey]. *)
Definition fooRawCtx : context.Context :=
  Some (context.valueCtx (context.valueCtx context.background "strKey" (Str "foo"))
          "rawKey" (Str "raw")).

(** A context with ["foo"] under [strKey] and [true] under [intKey]. *)
Definition fooTrueChain : context.chain :=
  context.valueCtx (context.valueCtx context.background "strKey" (Str "foo"))
    "intKey" (Bool true).
(** The names and keys of [strInt]. *)
Definition strIntNames : list (string * Key) := [("str", "strKey"); ("int", "intKey")].

(** The carrier [strInt] fills from [fooTrueChain]. *)
Definition strIntHeader : http.Header :=
  http.Header_Set examples.fooHeader "x-ctxwire-int"
    (base64.EncodeToString (bytes_of_string "true")).

(** The value propagators of [TestError], with ["str"] first. *)
Definition strEncode : list ValuePropagator.t :=
  [examples.strPropagator; examples.encodePropagator].
Definition strDecode : list ValuePropagator.t :=
  [examples.strPropagator; examples.decodePropagator].

(** The field ["x-ctxwire-STR"] holding the bytes of ["raw"]. *)
Definition rawHeader : http.Header :=
  http.Header_Set ∅ "x-ctxwire-STR" (base64.EncodeToString (bytes_of_string "raw")).


(** The propagator ["encode"] of [TestError] in the earlier layout. *)
Definition encodePropagatorV1 : V1.propagator.t :=
  V1.propagator.Build "encode" ctxwire_test.keyEncode
    (EncoderFunc ctxwire_test.errEncoder) (DecoderFunc (@V1.jsonDecoder examples.literals)).
End samples.

(** * Verification *)

(** ** base64: encoding then decoding *)

Section Base64Facts.
Import base64.

Lemma land_shiftl_low (x y n : N) : (y < 2 ^ n)%N -> N.land (N.shiftl x n) y = 0%N.
Proof.
  intros Hy. apply N.bits_inj. intros m.
  rewrite N.land_spec, N.bits_0.
  destruct (N.lt_ge_cases m n) as [Hlt | Hge].
  - now rewrite N.shiftl_spec_low.
  - rewrite <- (N.mod_small y (2 ^ n)) by exact Hy.
    rewrite N.mod_pow2_bits_high by exact Hge.
    apply andb_false_r.
Qed.

(** An or of two numbers with no common bit is their sum. *)
Lemma lor_add_disjoint (n x y : N) :
  (x mod 2 ^ n = 0)%N -> (y < 2 ^ n)%N -> N.lor x y = (x + y)%N.
Proof.
  intros Hx Hy.
  assert (Hsh : x = N.shiftl (x / 2 ^ n) n).
  { rewrite N.shiftl_mul_pow2.
    pose proof (N.div_mod x (2 ^ n)) as E.
    rewrite Hx, N.add_0_r in E. rewrite N.mul_comm. apply E.
    apply N.pow_nonzero. discriminate. }
  assert (Hland : N.land x y = 0%N).
  { rewrite Hsh. now apply land_shiftl_low. }
  rewrite <- N.lxor_lor by exact Hland.
  symmetry. now apply N.add_nocarry_lxor.
Qed.

Lemma uint_bounded (b : byte) : (uint b < 256)%N.
Proof. pose proof (Byte.to_N_bounded b). unfold uint. lia. Qed.

Lemma byte_of_uint_uint (v : N) (b : byte) :
  (v mod 256 = uint b)%N -> byte_of_uint v = b.
Proof.
  intros E. unfold byte_of_uint.
  change 255%N with (N.ones 8). rewrite N.land_ones.
  change (2 ^ 8)%N with 256%N. rewrite E. unfold uint.
  now rewrite Byte.of_to_N.
Qed.

(** Linear arithmetic with division and remainder by constants. *)
Ltac dlia := zify; Z.to_euclidean_division_equations; lia.

Ltac pow_consts :=
  change (2 ^ 6)%N with 64%N; change (2 ^ 8)%N with 256%N;
  change (2 ^ 12)%N with 4096%N; change (2 ^ 16)%N with 65536%N;
  change (2 ^ 18)%N with 262144%N.

Ltac shifts_to_arith :=
  rewrite ?N.shiftl_mul_pow2, ?N.shiftr_div_pow2;
  change 63%N with (N.ones 6); rewrite ?N.land_ones;
  pow_consts.

Ltac lor_to_add n :=
  match goal with
  | |- context [N.lor ?x ?y] =>
      rewrite (lor_add_disjoint n x y) by (pow_consts; dlia)
  end.

(** Four six-bit values put together give back the 24 bits they were cut
    from. *)
Lemma regroup (val : N) :
  (val < 16777216)%N ->
  N.lor (N.lor (N.lor (N.shiftl (N.land (N.shiftr val 18) 63) 18)
                      (N.shiftl (N.land (N.shiftr val 12) 63) 12))
               (N.shiftl (N.land (N.shiftr val 6) 63) 6))
        (N.land val 63) = val.
Proof.
  intros Hval. shifts_to_arith.
  set (s0 := ((val / 262144) mod 64 * 262144)%N).
  set (s1 := ((val / 4096) mod 64 * 4096)%N).
  set (s2 := ((val / 64) mod 64 * 64)%N).
  rewrite (lor_add_disjoint 18 s0 s1) by (subst s0 s1; pow_consts; dlia).
  rewrite (lor_add_disjoint 12 (s0 + s1) s2) by (subst s0 s1 s2; pow_consts; dlia).
  rewrite (lor_add_disjoint 6 (s0 + s1 + s2)) by (subst s0 s1 s2; pow_consts; dlia).
  subst s0 s1 s2. dlia.
Qed.

Lemma pack_3 (a b c : byte) :
  N.lor (N.lor (N.shiftl (uint a) 16) (N.shiftl (uint b) 8)) (uint c)
  = (uint a * 65536 + uint b * 256 + uint c)%N.
Proof.
  pose proof (uint_bounded a). pose proof (uint_bounded b). pose proof (uint_bounded c).
  shifts_to_arith.
  rewrite (lor_add_disjoint 16 (uint a * 65536) (uint b * 256)) by (pow_consts; dlia).
  rewrite (lor_add_disjoint 8) by (pow_consts; dlia).
  reflexivity.
Qed.

(** Three bytes, cut into four six-bit values, come back as they were. *)
Lemma quantum_3 (a b c : byte) :
  let val := N.lor (N.lor (N.shiftl (uint a) 16) (N.shiftl (uint b) 8)) (uint c) in
  quantum [N.land (N.shiftr val 18) 63; N.land (N.shiftr val 12) 63;
           N.land (N.shiftr val 6) 63; N.land val 63] = [a; b; c].
Proof.
  pose proof (uint_bounded a). pose proof (uint_bounded b). pose proof (uint_bounded c).
  cbv zeta. rewrite pack_3.
  unfold quantum. cbn [length nth take Nat.sub].
  rewrite regroup by lia.
  rewrite ?N.shiftr_div_pow2.
  change (2 ^ 8)%N with 256%N; change (2 ^ 16)%N with 65536%N.
  f_equal; [|f_equal; [|f_equal]]; apply byte_of_uint_uint; dlia.
Qed.

(** Two bytes and one padding character. *)
Lemma quantum_2 (a b : byte) :
  let val := N.lor (N.shiftl (uint a) 16) (N.shiftl (uint b) 8) in
  quantum [N.land (N.shiftr val 18) 63; N.land (N.shiftr val 12) 63;
           N.land (N.shiftr val 6) 63] = [a; b].
Proof.
  pose proof (uint_bounded a). pose proof (uint_bounded b).
  cbv zeta.
  assert (Hval : N.lor (N.shiftl (uint a) 16) (N.shiftl (uint b) 8)
                 = (uint a * 65536 + uint b * 256)%N).
  { shifts_to_arith. rewrite (lor_add_disjoint 16) by (pow_consts; dlia). reflexivity. }
  rewrite Hval. set (val := (uint a * 65536 + uint b * 256)%N).
  assert (Hlow : 0%N = N.land val 63).
  { change 63%N with (N.ones 6). rewrite N.land_ones. change (2 ^ 6)%N with 64%N.
    subst val. dlia. }
  unfold quantum. cbn [length nth take Nat.sub].
  rewrite Hlow. clear Hval Hlow. rewrite regroup by (subst val; dlia).
  rewrite ?N.shiftr_div_pow2.
  change (2 ^ 8)%N with 256%N; change (2 ^ 16)%N with 65536%N.
  subst val. f_equal; [|f_equal]; apply byte_of_uint_uint; dlia.
Qed.

(** One byte and two padding characters. *)
Lemma quantum_1 (a : byte) :
  let val := N.shiftl (uint a) 16 in
  quantum [N.land (N.shiftr val 18) 63; N.land (N.shiftr val 12) 63] = [a].
Proof.
  pose proof (uint_bounded a).
  cbv zeta. rewrite (N.shiftl_mul_pow2 (uint a)). change (2 ^ 16)%N with 65536%N.
  set (val := (uint a * 65536)%N).
  assert (Hlow : 0%N = N.land val 63).
  { change 63%N with (N.ones 6). rewrite N.land_ones. change (2 ^ 6)%N with 64%N.
    subst val. dlia. }
  assert (Hmid : N.shiftl 0 6 = N.shiftl (N.land (N.shiftr val 6) 63) 6).
  { f_equal. rewrite N.shiftr_div_pow2.
    change 63%N with (N.ones 6). rewrite N.land_ones. change (2 ^ 6)%N with 64%N.
    subst val. dlia. }
  unfold quantum. cbn [length nth take Nat.sub].
  rewrite Hmid, Hlow. clear Hlow Hmid. rewrite regroup by (subst val; dlia).
  rewrite ?N.shiftr_div_pow2. change (2 ^ 16)%N with 65536%N.
  subst val. f_equal. apply byte_of_uint_uint. dlia.
Qed.
Lemma decodeMap_encode (v : N) : decodeMap (encode v) = Some (N.land v 63).
Proof.
  unfold encode.
  assert (Hn : (N.land v 63 < 64)%N).
  { change 63%N with (N.ones 6). rewrite N.land_ones. now apply N.mod_lt. }
  destruct (N.land v 63) as [|p]; [reflexivity|].
  do 6 (try destruct p as [p|p|]); try reflexivity; exfalso; lia.
Qed.

Lemma list_ind3 {A} (P : list A -> Prop) :
  P [] -> (forall a, P [a]) -> (forall a b, P [a; b]) ->
  (forall a b c l, P l -> P (a :: b :: c :: l)) ->
  forall l, P l.
Proof.
  intros H0 H1 H2 H3. fix IH 1.
  intros [|a [|b [|c l]]]; [apply H0 | apply H1 | apply H2 | apply H3, IH].
Qed.

(** One turn of the decoding loop on a character of the alphabet. *)
Lemma decode_alphabet (c : ascii) (out : N) (rest : string) (si : Z) (dbuf : list N) :
  decodeMap c = Some out ->
  decode (String c rest) si dbuf =
    if Nat.eqb (length (dbuf ++ [out])) 4
    then let '(d, e) := decode rest (si + 1) [] in (quantum (dbuf ++ [out]) ++ d, e)
    else decode rest (si + 1) (dbuf ++ [out]).
Proof. intros E. cbn [decode]. now rewrite E. Qed.

Lemma decode_padding_2 (si : Z) (s0 s1 : N) :
  decode (String StdPadding (String StdPadding "")) si [s0; s1] = (quantum [s0; s1], None).
Proof. reflexivity. Qed.

Lemma decode_padding_1 (si : Z) (s0 s1 s2 : N) :
  decode (String StdPadding "") si [s0; s1; s2] = (quantum [s0; s1; s2], None).
Proof. reflexivity. Qed.

Lemma decode_EncodeToString (src : bytes) :
  forall si, decode (EncodeToString src) si [] = (src, None).
Proof.
  induction src as [|a|a b|a b c rest IH] using list_ind3; intros si.
  - reflexivity.
  - cbn [EncodeToString].
    rewrite !(decode_alphabet _ _ _ _ _ (decodeMap_encode _)).
    cbn [app length Nat.eqb].
    rewrite decode_padding_2. now rewrite quantum_1.
  - cbn [EncodeToString].
    rewrite !(decode_alphabet _ _ _ _ _ (decodeMap_encode _)).
    cbn [app length Nat.eqb].
    rewrite decode_padding_1. now rewrite quantum_2.
  - cbn [EncodeToString].
    rewrite !(decode_alphabet _ _ _ _ _ (decodeMap_encode _)).
    cbn [app length Nat.eqb].
    rewrite IH, quantum_3. reflexivity.
Qed.

(** Decoding what [EncodeToString] produced gives the bytes back, with no
    error. *)
Lemma DecodeString_EncodeToString (src : bytes) :
  DecodeString (EncodeToString src) = (src, None).
Proof. apply decode_EncodeToString. Qed.

(** Only the empty slice is encoded as the empty string. *)
Lemma EncodeToString_nonempty (src : bytes) :
  src <> [] -> EncodeToString src <> "".
Proof. destruct src as [|a [|b [|c rest]]]; [congruence | discriminate ..]. Qed.
End Base64Facts.


(** ** newError *)

Lemma newError_foreign (message : string) (err : error) :
  errors.As err = false -> newError message err = Error message err.
Proof. unfold newError. now intros ->. Qed.

Lemma newError_own (message : string) (err : error) :
  errors.As err = true -> newError message err = err.
Proof. unfold newError. now intros ->. Qed.

Lemma As_newError (message : string) (err : error) :
  errors.As (newError message err) = true.
Proof. unfold newError. destruct (errors.As err) eqn:E; [exact E | reflexivity]. Qed.

(** Wrapping twice is wrapping once: the label of the first stage stays. *)
Lemma newError_newError (m1 m2 : string) (err : error) :
  newError m2 (newError m1 err) = newError m1 err.
Proof. apply newError_own, As_newError. Qed.

Lemma chain_head (e : error) : In e (errors.chain e).
Proof. destruct e; left; reflexivity. Qed.

(** The cause stays on the [Unwrap] chain. *)
Lemma chain_newError (message : string) (err : error) :
  In err (errors.chain (newError message err)).
Proof.
  unfold newError. destruct (errors.As err).
  - apply chain_head.
  - cbn [errors.chain]. right. apply chain_head.
Qed.

(** ** The value propagator, case by case *)

Section ValuePropagatorCases.
Variable p : ValuePropagator.t.
Variable ctx : context.Context.
Variable h : http.Header.

Let key := ValuePropagator.contextKey p.
Let field := headerKey (ValuePropagator.name p).

Lemma Inject_encoder_panics :
  ValuePropagator.encoder p ctx key = Panics ->
  ValuePropagator.Inject p ctx h = Panics.
Proof.
  intros E. unfold ValuePropagator.Inject, bind, call. fold key. now rewrite E.
Qed.

Lemma Inject_encoder_fails (data : bytes) (err : error) :
  ValuePropagator.encoder p ctx key = Returns (data, Some err) ->
  ValuePropagator.Inject p ctx h = Returns (Some (newError "encode context value" err), h).
Proof.
  intros E. unfold ValuePropagator.Inject, bind, call. fold key. now rewrite E.
Qed.

Lemma Inject_nothing :
  ValuePropagator.encoder p ctx key = Returns ([], None) ->
  ValuePropagator.Inject p ctx h = Returns (None, h).
Proof.
  intros E. unfold ValuePropagator.Inject, bind, call. fold key. now rewrite E.
Qed.

Lemma Inject_payload (data : bytes) :
  ValuePropagator.encoder p ctx key = Returns (data, None) ->
  data <> [] ->
  ValuePropagator.Inject p ctx h =
    Returns (None, http.Header_Set h field (base64.EncodeToString data)).
Proof.
  intros E Hne. unfold ValuePropagator.Inject, bind, call. fold key. rewrite E.
  destruct data as [|b data]; [congruence | reflexivity].
Qed.

Lemma Extract_absent :
  http.Header_Get h field = "" ->
  ValuePropagator.Extract p ctx h = Returns ((ctx, None), h).
Proof.
  intros E. unfold ValuePropagator.Extract, bind, get. fold field. now rewrite E.
Qed.

Lemma Extract_wire_failure (v : bytes) (err : error) :
  http.Header_Get h field <> "" ->
  base64.DecodeString (http.Header_Get h field) = (v, Some err) ->
  ValuePropagator.Extract p ctx h =
    Returns ((None, Some (newError "base64 decode context value" err)), h).
Proof.
  intros Hne E. unfold ValuePropagator.Extract, bind, get. fold field.
  apply String.eqb_neq in Hne. now rewrite Hne, E.
Qed.

Lemma Extract_decoded (v : bytes) :
  http.Header_Get h field <> "" ->
  base64.DecodeString (http.Header_Get h field) = (v, None) ->
  ValuePropagator.Extract p ctx h =
    match ValuePropagator.decoder p ctx key v with
    | Returns (newCtx, None) => Returns ((newCtx, None), h)
    | Returns (_, Some err) => Returns ((None, Some (newError "decode context value" err)), h)
    | Panics => Panics
    end.
Proof.
  intros Hne E. unfold ValuePropagator.Extract, bind, get, call. fold field key.
  apply String.eqb_neq in Hne. rewrite Hne, E.
  destruct (ValuePropagator.decoder p ctx key v) as [[newCtx [err|]]|]; reflexivity.
Qed.

(** [Extract] leaves the header as it found it. *)
Lemma Extract_header (r : context.Context * option error) (h' : http.Header) :
  ValuePropagator.Extract p ctx h = Returns (r, h') -> h' = h.
Proof.
  unfold ValuePropagator.Extract, bind, get, call, ret.
  destruct (String.eqb _ _); [congruence|].
  destruct (base64.DecodeString _) as [v [err|]]; [congruence|].
  destruct (ValuePropagator.decoder _ _ _ _) as [[newCtx [err|]]|]; congruence.
Qed.
End ValuePropagatorCases.

(** ** The register, turn by turn *)

Lemma Inject_range_cons_ok (p : Propagator.t) (ps : list Propagator.t)
  (ctx : context.Context) (h h1 : http.Header) :
  Propagator.Inject p ctx h = Returns (None, h1) ->
  propagatorRegister.Inject_range (p :: ps) ctx h = propagatorRegister.Inject_range ps ctx h1.
Proof. intros E. cbn [propagatorRegister.Inject_range]. unfold bind. now rewrite E. Qed.

Lemma Inject_range_cons_err (p : Propagator.t) (ps : list Propagator.t)
  (ctx : context.Context) (h h1 : http.Header) (err : error) :
  Propagator.Inject p ctx h = Returns (Some err, h1) ->
  propagatorRegister.Inject_range (p :: ps) ctx h = Returns (Some err, h1).
Proof. intros E. cbn [propagatorRegister.Inject_range]. unfold bind. now rewrite E. Qed.

Lemma Extract_range_cons_ok (p : Propagator.t) (ps : list Propagator.t)
  (ctx ctx1 : context.Context) (h h1 : http.Header) :
  Propagator.Extract p ctx h = Returns ((ctx1, None), h1) ->
  propagatorRegister.Extract_range (p :: ps) ctx h = propagatorRegister.Extract_range ps ctx1 h1.
Proof. intros E. cbn [propagatorRegister.Extract_range]. unfold bind. now rewrite E. Qed.

Lemma Extract_range_cons_err (p : Propagator.t) (ps : list Propagator.t)
  (ctx ctx1 : context.Context) (h h1 : http.Header) (err : error) :
  Propagator.Extract p ctx h = Returns ((ctx1, Some err), h1) ->
  propagatorRegister.Extract_range (p :: ps) ctx h = Returns ((None, Some err), h1).
Proof. intros E. cbn [propagatorRegister.Extract_range]. unfold bind. now rewrite E. Qed.

(** ** The header map *)

Lemma Header_Get_Set (h : http.Header) (key value : string) :
  http.Header_Get (http.Header_Set h key value) key = value.
Proof. unfold http.Header_Get, http.Header_Set. now rewrite lookup_insert_eq. Qed.

Lemma Header_Set_other (h : http.Header) (key value k : string) :
  k <> textproto.CanonicalMIMEHeaderKey key ->
  http.Header_Set h key value !! k = h !! k.
Proof. intros Hne. unfold http.Header_Set. now rewrite lookup_insert_ne. Qed.

(** The field of ["str"] is stored under its canonical key, and names that
    differ by case only share their field. *)
Lemma headerKey_canonical :
  textproto.CanonicalMIMEHeaderKey (headerKey "str") = "X-Ctxwire-Str"
  /\ textproto.CanonicalMIMEHeaderKey (headerKey "STR") = "X-Ctxwire-Str"
  /\ textproto.CanonicalMIMEHeaderKey (headerKey "my name") = "x-ctxwire-my name".
Proof. repeat split. Qed.

(** What [Inject] of a value propagator can have done to the header: set
    its own field, or nothing. *)
Lemma Inject_header (p : ValuePropagator.t) (ctx : context.Context)
  (h h' : http.Header) (r : option error) :
  ValuePropagator.Inject p ctx h = Returns (r, h') ->
  h' = h \/
  exists data, ValuePropagator.encoder p ctx (ValuePropagator.contextKey p) = Returns (data, None)
    /\ data <> []
    /\ h' = http.Header_Set h (headerKey (ValuePropagator.name p)) (base64.EncodeToString data).
Proof.
  unfold ValuePropagator.Inject, bind, call, ret, set.
  destruct (ValuePropagator.encoder _ _ _) as [[data [err|]]|] eqn:E; [| |discriminate].
  - intros [= _ <-]. now left.
  - destruct data as [|b data]; cbn [length Nat.eqb].
    + intros [= _ <-]. now left.
    + intros [= _ <-]. right. exists (b :: data). now repeat split.
Qed.

(** ** Partial failure *)

(** C1. Fail-void on Extract: with the propagators [A; B; C] registered, if
    A's Extract went through and B's base64 decoding or B's decoder fails,
    the register's Extract (and the package's) returns the nil context with
    B's wrapped error.  The context [ctxA] that A had extended is not
    returned, and the result is the same whatever C is: C is not called. *)
Theorem C1_Extract_fail_void
  (A : Propagator.t) (B : ValuePropagator.t) (C : Propagator.t)
  (ctx ctxA : context.Context) (h hA : http.Header) (v : bytes) (e err : error) :
  Propagator.Extract A ctx h = Returns ((ctxA, None), hA) ->
  http.Header_Get hA (headerKey (ValuePropagator.name B)) <> "" ->
  (base64.DecodeString (http.Header_Get hA (headerKey (ValuePropagator.name B))) = (v, Some e)
   /\ err = newError "base64 decode context value" e)
  \/ (exists ctxB,
        base64.DecodeString (http.Header_Get hA (headerKey (ValuePropagator.name B))) = (v, None)
        /\ ValuePropagator.decoder B ctxA (ValuePropagator.contextKey B) v = Returns (ctxB, Some e)
        /\ err = newError "decode context value" e) ->
  let register := propagatorRegister.Build [A; ValuePropagator.asPropagator B; C] in
  propagatorRegister.Extract register ctx h = Returns ((None, Some err), hA)
  /\ Extract register ctx h = Returns ((None, Some err), hA).
Proof.
  intros HA Hne Hfail register.
  assert (HB : ValuePropagator.Extract B ctxA hA = Returns ((None, Some err), hA)).
  { destruct Hfail as [[E ->] | (ctxB & E & D & ->)].
    - now apply Extract_wire_failure with (v := v).
    - rewrite (Extract_decoded _ _ _ v Hne E). now rewrite D. }
  assert (HR : propagatorRegister.Extract register ctx h = Returns ((None, Some err), hA)).
  { unfold propagatorRegister.Extract, register. cbn [propagatorRegister.propagators].
    rewrite (Extract_range_cons_ok _ _ _ _ _ _ HA).
    now apply Extract_range_cons_err with (ctx1 := None). }
  split; [exact HR|].
  unfold Extract, bind. rewrite HR. unfold ret.
  destruct Hfail as [[_ ->] | (_ & _ & _ & ->)]; now rewrite newError_newError.
Qed.

(** In the setting of [TestError]: the field of ["str"] decodes, the decoder
    of ["decode"] fails, and the third propagator would panic if called. *)
Lemma C1_Extract_fail_void_witness :
  propagatorRegister.Extract examples.threeOnExtract context.Background examples.fooBarHeader
    = Returns ((None, Some (Error "decode context value" (errorString "failed!"))),
               examples.fooBarHeader)
  /\ Extract examples.threeOnExtract context.Background examples.fooBarHeader
    = Returns ((None, Some (Error "decode context value" (errorString "failed!"))),
               examples.fooBarHeader).
Proof.
  apply (C1_Extract_fail_void
           (ValuePropagator.asPropagator examples.strPropagator)
           examples.decodePropagator examples.panicking
           context.Background examples.fooCtx examples.fooBarHeader examples.fooBarHeader
           examples.barJSON (errorString "failed!")).
  - vm_compute. reflexivity.
  - vm_compute. discriminate.
  - right. exists None. repeat split; vm_compute; reflexivity.
Defined.

(** C2. Fail-stop on Inject: with the propagators [A; B; C] registered, if
    A's Inject went through and B's encoder fails, the register's Inject
    (and the package's) returns B's wrapped error and leaves the header as
    A left it: the field A wrote is set, every field other than A's is as
    it was before the call, and the result is the same whatever C is: C is
    not called. *)
Theorem C2_Inject_fail_stop
  (A B : ValuePropagator.t) (C : Propagator.t)
  (ctx : context.Context) (h hA : http.Header) (dataB : bytes) (e : error) :
  ValuePropagator.Inject A ctx h = Returns (None, hA) ->
  ValuePropagator.encoder B ctx (ValuePropagator.contextKey B) = Returns (dataB, Some e) ->
  let register :=
    propagatorRegister.Build
      [ValuePropagator.asPropagator A; ValuePropagator.asPropagator B; C] in
  let err := newError "encode context value" e in
  (propagatorRegister.Inject register ctx h = Returns (Some err, hA)
   /\ Inject register ctx h = Returns (Some err, hA))
  /\ (forall dataA,
        ValuePropagator.encoder A ctx (ValuePropagator.contextKey A) = Returns (dataA, None) ->
        dataA <> [] ->
        http.Header_Get hA (headerKey (ValuePropagator.name A)) = base64.EncodeToString dataA)
  /\ (forall k,
        k <> textproto.CanonicalMIMEHeaderKey (headerKey (ValuePropagator.name A)) ->
        hA !! k = h !! k).
Proof.
  intros HA HB register err.
  assert (HR : propagatorRegister.Inject register ctx h = Returns (Some err, hA)).
  { unfold propagatorRegister.Inject, register. cbn [propagatorRegister.propagators].
    rewrite (Inject_range_cons_ok (ValuePropagator.asPropagator A) _ ctx h hA HA).
    apply Inject_range_cons_err.
    exact (Inject_encoder_fails B ctx hA dataB e HB). }
  split; [split; [exact HR|] | split].
  - unfold Inject, bind. rewrite HR. unfold ret, err. now rewrite newError_newError.
  - intros dataA EA Hne. rewrite (Inject_payload A ctx h dataA EA Hne) in HA.
    injection HA as <-. apply Header_Get_Set.
  - intros k Hk. destruct (Inject_header A ctx h hA None HA) as [-> | (data & _ & _ & ->)].
    + reflexivity.
    + now apply Header_Set_other.
Qed.


(** In the setting of [TestError]: ["str"] is written, the encoder of
    ["encode"] fails, and the third propagator would panic if called. *)
Lemma C2_Inject_fail_stop_witness :
  Inject examples.threeOnInject examples.fooEncodeCtx ∅
    = Returns (Some (Error "encode context value" (errorString "failed!")), examples.fooHeader)
  /\ http.Header_Get examples.fooHeader "x-ctxwire-str" = "ImZvbyI="
  /\ http.Header_Get examples.fooHeader "x-ctxwire-encode" = "".
Proof.
  edestruct (C2_Inject_fail_stop
               examples.strPropagator examples.encodePropagator examples.panicking
               examples.fooEncodeCtx ∅ examples.fooHeader [] (errorString "failed!"))
    as [[_ HI] _].
  - vm_compute. reflexivity.
  - vm_compute. reflexivity.
  - split; [exact HI | split; vm_compute; reflexivity].
Defined.

(** ** Round trip *)

(** The field a propagator wrote reads back as the base64 text of the
    payload, which decodes to the payload. *)
Lemma wire_round_trip (h : http.Header) (field : string) (data : bytes) :
  data <> [] ->
  let h' := http.Header_Set h field (base64.EncodeToString data) in
  http.Header_Get h' field <> ""
  /\ base64.DecodeString (http.Header_Get h' field) = (data, None).
Proof.
  intros Hne h'. unfold h'. rewrite Header_Get_Set. split.
  - now apply EncodeToString_nonempty.
  - apply DecodeString_EncodeToString.
Qed.

Lemma value_bound (c : context.chain) (key : Key) :
  context.bound c key = false -> context.value c key = Nil.
Proof.
  induction c as [|parent IH k v]; cbn; [reflexivity|].
  destruct (String.eqb k key); cbn; [discriminate | exact IH].
Qed.

Lemma encodeJSON_Nil `{json.Codec} (c : context.chain) (key : Key) :
  context.value c key = Nil -> encodeJSON (Some c) key = Returns ([], None).
Proof. intros E. unfold encodeJSON. cbn. now rewrite E. Qed.

Lemma encodeJSON_value `{json.Codec} (c : context.chain) (key : Key) :
  context.value c key <> Nil ->
  encodeJSON (Some c) key = Returns (json.Marshal (context.value c key)).
Proof. intros E. unfold encodeJSON. cbn. now destruct (context.value c key). Qed.

Lemma decodeJSON_value `{json.Codec} (c : context.chain) (key : Key) (data : bytes) (v : any) :
  json.Unmarshal data = (v, None) ->
  decodeJSON (Some c) key data = Returns (Some (context.valueCtx c key v), None).
Proof. intros E. unfold decodeJSON. now rewrite E. Qed.

(** C3, as stated, fails.  The context holds the empty string under the
    key; the codec [rawEncoder]/[rawDecoder] encodes it, without error, as
    the zero-length payload, and decodes that payload back to the empty
    string; yet there is no round trip into the background context: Inject
    writes no field, and Extract returns the background context, whose
    value under the key is nil. *)
Lemma C3_round_trip_counterexample :
  context.Value examples.emptyRawCtx "rawKey" = Returns (Str "")
  /\ ValuePropagator.encoder examples.rawPropagator examples.emptyRawCtx "rawKey"
     = Returns ([], None)
  /\ ValuePropagator.decoder examples.rawPropagator context.Background "rawKey" []
     = Returns (examples.emptyRawCtx, None)
  /\ ValuePropagator.Inject examples.rawPropagator examples.emptyRawCtx ∅ = Returns (None, ∅)
  /\ ValuePropagator.Extract examples.rawPropagator context.Background ∅
     = Returns ((context.Background, None), ∅)
  /\ ~ round_trip examples.rawPropagator examples.emptyRawCtx context.Background (Str "").
Proof.
  assert (HI : ValuePropagator.Inject examples.rawPropagator examples.emptyRawCtx ∅
               = Returns (None, ∅)) by reflexivity.
  assert (HE : ValuePropagator.Extract examples.rawPropagator context.Background ∅
               = Returns ((context.Background, None), ∅)) by reflexivity.
  repeat split; try reflexivity.
  intros (h & ctx' & HI' & HE' & HV).
  rewrite HI in HI'. injection HI' as <-.
  rewrite HE in HE'. injection HE' as <-.
  discriminate HV.
Qed.

(** C3, amended.  When the encoder gives a payload that is not empty,
    Inject into the empty carrier sets the propagator's field, and Extract
    from that carrier into any context [ctx0] returns what the decoder
    returns on [ctx0] and that very payload (its error wrapped).  For the
    JSON codec: when [v] is marshalled to a non-empty document that is
    unmarshalled to [v], Extract returns [ctx0] extended with [v] under the
    key.  A zero-length payload is not carried: no field is written, and
    Extract returns [ctx0] as it is. *)
Theorem C3_round_trip :
  (forall (p : ValuePropagator.t) (ctx ctx0 : context.Context) (data : bytes),
      ValuePropagator.encoder p ctx (ValuePropagator.contextKey p) = Returns (data, None) ->
      data <> [] ->
      exists h,
        ValuePropagator.Inject p ctx ∅ = Returns (None, h)
        /\ ValuePropagator.Extract p ctx0 h =
             match ValuePropagator.decoder p ctx0 (ValuePropagator.contextKey p) data with
             | Returns (newCtx, None) => Returns ((newCtx, None), h)
             | Returns (_, Some err) =>
                 Returns ((None, Some (newError "decode context value" err)), h)
             | Panics => Panics
             end)
  /\ (forall (J : json.Codec) (name : string) (key : Key) (c c0 : context.chain)
        (v : any) (data : bytes),
        context.value c key = v ->
        v <> Nil ->
        json.Marshal v = (data, None) ->
        data <> [] ->
        json.Unmarshal data = (v, None) ->
        exists h,
          ValuePropagator.Inject (NewJSONPropagator name key) (Some c) ∅ = Returns (None, h)
          /\ ValuePropagator.Extract (NewJSONPropagator name key) (Some c0) h
             = Returns ((Some (context.valueCtx c0 key v), None), h)
          /\ context.Value (Some (context.valueCtx c0 key v)) key = Returns v)
  /\ (forall (p : ValuePropagator.t) (ctx ctx0 : context.Context),
        ValuePropagator.encoder p ctx (ValuePropagator.contextKey p) = Returns ([], None) ->
        ValuePropagator.Inject p ctx ∅ = Returns (None, ∅)
        /\ ValuePropagator.Extract p ctx0 ∅ = Returns ((ctx0, None), ∅)).
Proof.
  assert (G : forall (p : ValuePropagator.t) (ctx ctx0 : context.Context) (data : bytes),
             ValuePropagator.encoder p ctx (ValuePropagator.contextKey p) = Returns (data, None) ->
             data <> [] ->
             exists h,
               ValuePropagator.Inject p ctx ∅ = Returns (None, h)
               /\ ValuePropagator.Extract p ctx0 h =
                    match ValuePropagator.decoder p ctx0 (ValuePropagator.contextKey p) data with
                    | Returns (newCtx, None) => Returns ((newCtx, None), h)
                    | Returns (_, Some err) =>
                        Returns ((None, Some (newError "decode context value" err)), h)
                    | Panics => Panics
                    end).
  { intros p ctx ctx0 data E Hne.
    destruct (wire_round_trip ∅ (headerKey (ValuePropagator.name p)) data Hne) as [Hget Hdec].
    eexists. split.
    - exact (Inject_payload p ctx ∅ data E Hne).
    - exact (Extract_decoded p ctx0 _ data Hget Hdec). }
  split; [exact G | split]; cycle 1.
  { intros p ctx ctx0 E. split.
    - now apply Inject_nothing.
    - apply Extract_absent. unfold http.Header_Get. now rewrite lookup_empty. }
  intros J name key c c0 v data Hv Hnil Hm Hne Hu.
  destruct (G (NewJSONPropagator name key) (Some c) (Some c0) data) as (h & HI & HE).
  - unfold NewJSONPropagator, NewValuePropagator, EncoderFunc.
    cbn [ValuePropagator.encoder ValuePropagator.contextKey].
    rewrite encodeJSON_value by congruence. now rewrite Hv, Hm.
  - exact Hne.
  - exists h. split; [exact HI | split].
    + rewrite HE. unfold NewJSONPropagator, NewValuePropagator, DecoderFunc.
      cbn [ValuePropagator.decoder ValuePropagator.contextKey].
      now rewrite (decodeJSON_value _ _ _ v Hu).
    + cbn. now rewrite String.eqb_refl.
Qed.

(** The value ["foo"] of the test goes through the JSON propagator. *)
Lemma C3_round_trip_witness :
  exists h,
    ValuePropagator.Inject examples.strPropagator examples.fooCtx ∅ = Returns (None, h)
    /\ ValuePropagator.Extract examples.strPropagator context.Background h
       = Returns ((examples.fooCtx, None), h)
    /\ context.Value examples.fooCtx "strKey" = Returns (Str "foo").
Proof.
  destruct C3_round_trip as (_ & HJ & _).
  apply (HJ examples.literals "str" "strKey"
            (context.valueCtx context.background "strKey" (Str "foo"))
            context.background (Str "foo") examples.fooJSON).
  - vm_compute. reflexivity.
  - discriminate.
  - vm_compute. reflexivity.
  - vm_compute. discriminate.
  - vm_compute. reflexivity.
Defined.

(** ** Absence *)

(** The header reads as empty when the field is missing, has no value, or
    has the empty string as its first value. *)
Lemma Header_Get_empty (h : http.Header) (key : string) :
  http.Header_Get h key = "" <->
  (h !! textproto.CanonicalMIMEHeaderKey key = None
   \/ h !! textproto.CanonicalMIMEHeaderKey key = Some []
   \/ exists vs, h !! textproto.CanonicalMIMEHeaderKey key = Some ("" :: vs)).
Proof.
  unfold http.Header_Get.
  destruct (h !! textproto.CanonicalMIMEHeaderKey key) as [[|v vs]|]; split.
  - intros _. right. now left.
  - reflexivity.
  - intros ->. right. right. now exists vs.
  - intros [?|[?|[vs' ?]]]; congruence.
  - intros _. now left.
  - reflexivity.
Qed.

(** The JSON encoder keeps the contract on absence. *)
Lemma encodeJSON_silent `{json.Codec} : silent_on_absence (EncoderFunc encodeJSON).
Proof. intros c key E. now apply encodeJSON_Nil. Qed.



(** ** Order *)

(** C5. Registration order: with A then B registered, the register's Extract
    runs A on the context it received and then B's decoder on the context
    [ctxA] that A returned: the result is what B's decoder makes of [ctxA]
    and of the payload of B's field. *)
Theorem C5_Extract_threads_context
  (A : Propagator.t) (B : ValuePropagator.t)
  (ctx ctxA : context.Context) (h hA : http.Header) (vB : bytes) :
  Propagator.Extract A ctx h = Returns ((ctxA, None), hA) ->
  http.Header_Get hA (headerKey (ValuePropagator.name B)) <> "" ->
  base64.DecodeString (http.Header_Get hA (headerKey (ValuePropagator.name B))) = (vB, None) ->
  propagatorRegister.Extract
    (propagatorRegister.Build [A; ValuePropagator.asPropagator B]) ctx h =
    match ValuePropagator.decoder B ctxA (ValuePropagator.contextKey B) vB with
    | Returns (ctxB, None) => Returns ((ctxB, None), hA)
    | Returns (_, Some err) => Returns ((None, Some (newError "decode context value" err)), hA)
    | Panics => Panics
    end.
Proof.
  intros HA Hne Hdec.
  unfold propagatorRegister.Extract. cbn [propagatorRegister.propagators].
  rewrite (Extract_range_cons_ok _ _ _ _ _ _ HA).
  cbn [propagatorRegister.Extract_range]. unfold bind.
  cbn [Propagator.Extract ValuePropagator.asPropagator].
  rewrite (Extract_decoded B ctxA hA vB Hne Hdec).
  destruct (ValuePropagator.decoder B ctxA _ vB) as [[ctxB [err|]]|]; reflexivity.
Qed.

(** The propagator of ["user"] stores ["ann"]; the decoder of ["greet"]
    reads it from the context it receives, in the same Extract. *)
Lemma C5_Extract_threads_context_witness :
  propagatorRegister.Extract
    (propagatorRegister.Build
       [ValuePropagator.asPropagator examples.userPropagator;
        ValuePropagator.asPropagator examples.greetPropagator])
    context.Background examples.greetHeader
  = Returns ((Some (context.valueCtx
                      (context.valueCtx context.background "userKey" (Str "ann"))
                      "greetKey" (Str "hello ann")), None),
             examples.greetHeader).
Proof.
  rewrite (C5_Extract_threads_context
             (ValuePropagator.asPropagator examples.userPropagator) examples.greetPropagator
             context.Background
             (Some (context.valueCtx context.background "userKey" (Str "ann")))
             examples.greetHeader examples.greetHeader (bytes_of_string "hello ")).
  - reflexivity.
  - vm_compute. reflexivity.
  - vm_compute. discriminate.
  - vm_compute. reflexivity.
Defined.

(** ** Stage errors *)

Lemma Inject_range_app (pre ps : list Propagator.t)
  (ctx : context.Context) (h h1 : http.Header) :
  propagatorRegister.Inject_range pre ctx h = Returns (None, h1) ->
  propagatorRegister.Inject_range (pre ++ ps) ctx h = propagatorRegister.Inject_range ps ctx h1.
Proof.
  revert h. induction pre as [|q pre IH]; intros h.
  - cbn. unfold ret. now intros [= ->].
  - cbn [propagatorRegister.Inject_range app]. unfold bind.
    destruct (Propagator.Inject q ctx h) as [[[err|] h']|]; [discriminate | | discriminate].
    apply IH.
Qed.

Lemma Extract_range_app (pre ps : list Propagator.t)
  (ctx ctx1 : context.Context) (h h1 : http.Header) :
  propagatorRegister.Extract_range pre ctx h = Returns ((ctx1, None), h1) ->
  propagatorRegister.Extract_range (pre ++ ps) ctx h
  = propagatorRegister.Extract_range ps ctx1 h1.
Proof.
  revert ctx h. induction pre as [|q pre IH]; intros ctx h.
  - cbn. unfold ret. now intros [= -> ->].
  - cbn [propagatorRegister.Extract_range app]. unfold bind.
    destruct (Propagator.Extract q ctx h) as [[[ctx' [err|]] h']|];
      [discriminate | | discriminate].
    apply IH.
Qed.

(** Every error of a value propagator carries an [*Error]. *)
Lemma ValuePropagator_errors_own (p : ValuePropagator.t) (ctx : context.Context)
  (h : http.Header) :
  (forall e h', ValuePropagator.Inject p ctx h = Returns (Some e, h') -> errors.As e = true)
  /\ (forall c e h', ValuePropagator.Extract p ctx h = Returns ((c, Some e), h') ->
                     errors.As e = true).
Proof.
  split.
  - intros e h'. unfold ValuePropagator.Inject, bind, call, ret, set.
    destruct (ValuePropagator.encoder _ _ _) as [[data [err|]]|]; [| |discriminate].
    + intros [= <- _]. apply As_newError.
    + destruct (Nat.eqb _ _); discriminate.
  - intros c e h'. unfold ValuePropagator.Extract, bind, call, ret, get.
    destruct (String.eqb _ _); [discriminate|].
    destruct (base64.DecodeString _) as [v [err|]].
    + intros [= _ <- _]. apply As_newError.
    + destruct (ValuePropagator.decoder _ _ _ _) as [[newCtx [err|]]|]; [| |discriminate].
      * intros [= _ <- _]. apply As_newError.
      * discriminate.
Qed.

(** C6, as stated, fails.  This is [TestError]: the propagator ["encode"]
    returns its error, and the package's Inject returns that very error,
    whose text is ["encode context value: failed!"] and which nowhere
    carries the label ["inject context values"]; likewise for Extract and
    the propagator ["decode"]. *)
Lemma C6_label_counterexample :
  (ValuePropagator.Inject examples.encodePropagator examples.encodeCtx ∅
     = Returns (Some (Error "encode context value" (errorString "failed!")), ∅)
   /\ Inject examples.testError examples.encodeCtx ∅
     = Returns (Some (Error "encode context value" (errorString "failed!")), ∅)
   /\ has_label "inject context values"
        (Error "encode context value" (errorString "failed!")) = false
   /\ Error_Error (Error "encode context value" (errorString "failed!"))
     = "encode context value: failed!")
  /\ (ValuePropagator.Extract examples.decodePropagator context.Background examples.barHeader
        = Returns ((None, Some (Error "decode context value" (errorString "failed!"))),
                   examples.barHeader)
      /\ Extract examples.testError context.Background examples.barHeader
        = Returns ((None, Some (Error "decode context value" (errorString "failed!"))),
                   examples.barHeader)
      /\ has_label "extract context values"
           (Error "decode context value" (errorString "failed!")) = false
      /\ Error_Error (Error "decode context value" (errorString "failed!"))
        = "decode context value: failed!").
Proof. repeat split; vm_compute; reflexivity. Qed.

(** C6, amended.  When the propagators before [p] went through and [p]
    returns the error [e], the package's Inject (Extract) returns
    [newError] of the call-level label and [e]: this is [e] itself,
    unchanged, when [e] already carries an [*Error] on its chain, and
    otherwise the [*Error] of the call-level label around [e]; either way
    [e] is on the chain of the error returned.  The error of a value
    propagator always carries an [*Error], its own stage label: it is
    returned unchanged. *)
Theorem C6_stage_error
  (pre post : list Propagator.t) (p : Propagator.t)
  (ctx : context.Context) (h h1 h2 : http.Header) (e : error)
  (pre' post' : list Propagator.t) (p' : Propagator.t)
  (ctx' ctx1 ctx2 : context.Context) (h' h1' h2' : http.Header) (e' : error) :
  propagatorRegister.Inject_range pre ctx h = Returns (None, h1) ->
  Propagator.Inject p ctx h1 = Returns (Some e, h2) ->
  propagatorRegister.Extract_range pre' ctx' h' = Returns ((ctx1, None), h1') ->
  Propagator.Extract p' ctx1 h1' = Returns ((ctx2, Some e'), h2') ->
  (Inject (propagatorRegister.Build (pre ++ p :: post)) ctx h
     = Returns (Some (newError "inject context values" e), h2)
   /\ Extract (propagatorRegister.Build (pre' ++ p' :: post')) ctx' h'
     = Returns ((None, Some (newError "extract context values" e')), h2'))
  /\ (In e (errors.chain (newError "inject context values" e))
      /\ In e' (errors.chain (newError "extract context values" e')))
  /\ (forall label err, errors.As err = true -> newError label err = err)
  /\ (forall label err, errors.As err = false ->
        newError label err = Error label err /\ has_label label (newError label err) = true)
  /\ (forall (vp : ValuePropagator.t) c0 h0 err h0',
        ValuePropagator.Inject vp c0 h0 = Returns (Some err, h0') ->
        newError "inject context values" err = err)
  /\ (forall (vp : ValuePropagator.t) c0 h0 c1 err h0',
        ValuePropagator.Extract vp c0 h0 = Returns ((c1, Some err), h0') ->
        newError "extract context values" err = err).
Proof.
  intros Hpre Hp Hpre' Hp'.
  split; [split | split; [split | split; [|split; [|split]]]].
  - unfold Inject, propagatorRegister.Inject, bind. cbn [propagatorRegister.propagators].
    rewrite (Inject_range_app pre (p :: post) ctx h h1 Hpre).
    now rewrite (Inject_range_cons_err p post ctx h1 h2 e Hp).
  - unfold Extract, propagatorRegister.Extract, bind. cbn [propagatorRegister.propagators].
    rewrite (Extract_range_app pre' (p' :: post') ctx' ctx1 h' h1' Hpre').
    now rewrite (Extract_range_cons_err p' post' ctx1 ctx2 h1' h2' e' Hp').
  - apply chain_newError.
  - apply chain_newError.
  - intros label err. apply newError_own.
  - intros label err Has. rewrite newError_foreign by assumption. split; [reflexivity|].
    unfold has_label. cbn [errors.chain existsb]. now rewrite String.eqb_refl.
  - intros vp c0 h0 err h0' E. apply newError_own.
    now apply (proj1 (ValuePropagator_errors_own vp c0 h0) err h0').
  - intros vp c0 h0 c1 err h0' E. apply newError_own.
    now apply (proj2 (ValuePropagator_errors_own vp c0 h0) c1 err h0').
Qed.

(** [TestError] again, and its register with the codecs' errors. *)
Lemma C6_stage_error_witness :
  Inject examples.testError examples.encodeCtx ∅
    = Returns (Some (Error "encode context value" (errorString "failed!")), ∅)
  /\ Extract examples.testError context.Background examples.barHeader
    = Returns ((None, Some (Error "decode context value" (errorString "failed!"))),
               examples.barHeader).
Proof.
  apply (C6_stage_error
           [] [ValuePropagator.asPropagator examples.decodePropagator]
           (ValuePropagator.asPropagator examples.encodePropagator)
           examples.encodeCtx ∅ ∅ ∅ (Error "encode context value" (errorString "failed!"))
           [ValuePropagator.asPropagator examples.encodePropagator] []
           (ValuePropagator.asPropagator examples.decodePropagator)
           context.Background context.Background None
           examples.barHeader examples.barHeader examples.barHeader
           (Error "decode context value" (errorString "failed!")));
    vm_compute; reflexivity.
Defined.

(** ** Wire-format failure *)

(** The only error of the base64 decoder is [CorruptInputError]. *)
Lemma decode_error_kind (src : string) :
  forall (si : Z) (dbuf : list N) (d : bytes) (e : error),
    base64.decode src si dbuf = (d, Some e) -> exists offset, e = CorruptInputError offset.
Proof.
  induction src as [|c rest IH]; intros si dbuf d e; cbn [base64.decode].
  - destruct dbuf; intros [= _ <-]; eauto.
  - destruct (base64.decodeMap c) as [out|].
    + destruct (Nat.eqb _ _).
      * destruct (base64.decode rest (si + 1) []) as [d' e'] eqn:E.
        intros [= _ ->]. eapply IH, E.
      * apply IH.
    + destruct (base64.isNewline c); [apply IH|].
      destruct (negb _); [intros [= _ <-]; eauto|].
      destruct (length dbuf) as [|[|[|n]]]; try (intros [= _ <-]; eauto).
      * destruct (base64.skipNewlines rest (si + 1)) as [[|c1 rest2] si1];
          [intros [= _ <-]; eauto|].
        destruct (negb _); [intros [= _ <-]; eauto|].
        destruct (base64.skipNewlines rest2 (si1 + 1)) as [[|c3 rest3] si3];
          [discriminate | intros [= _ <-]; eauto].
      * destruct (base64.skipNewlines rest (si + 1)) as [[|c3 rest3] si3];
          [discriminate | intros [= _ <-]; eauto].
Qed.

Lemma DecodeString_error_kind (s : string) (d : bytes) (e : error) :
  base64.DecodeString s = (d, Some e) -> exists offset, e = CorruptInputError offset.
Proof. apply decode_error_kind. Qed.

(** An error without [*Error] on its chain carries no label. *)
Lemma has_label_foreign (label : string) (e : error) :
  errors.As e = false -> has_label label e = false.
Proof.
  unfold has_label.
  induction e as [s|offset|msg e IH|message e IH]; cbn; intros Has;
    [reflexivity | reflexivity | now apply IH | discriminate].
Qed.

(** C7. Wire-format failure: when the propagator's field is present and is
    not base64, Extract returns the nil context and the [*Error] labelled
    ["base64 decode context value"] whose cause is base64's
    [CorruptInputError]; when the field decodes and the decoder fails,
    Extract returns the nil context and [newError] of
    ["decode context value"] and the decoder's error.  The two errors are
    the same only if the decoder itself returned that wire-format error;
    for a decoder's error that carries no [*Error], the labels and the
    texts differ. *)
Theorem C7_wire_format_failure
  (p : ValuePropagator.t) (ctx : context.Context) (h : http.Header) :
  http.Header_Get h (headerKey (ValuePropagator.name p)) <> "" ->
  (forall v e,
      base64.DecodeString (http.Header_Get h (headerKey (ValuePropagator.name p))) = (v, Some e) ->
      exists offset,
        e = CorruptInputError offset
        /\ ValuePropagator.Extract p ctx h
           = Returns ((None, Some (Error "base64 decode context value"
                                     (CorruptInputError offset))), h)
        /\ Error_Error (Error "base64 decode context value" (CorruptInputError offset))
           = ("base64 decode context value: illegal base64 data at input byte "
                ++ NilZero.string_of_int (Z.to_int offset))%string)
  /\ (forall v ctxD e,
        base64.DecodeString (http.Header_Get h (headerKey (ValuePropagator.name p))) = (v, None) ->
        ValuePropagator.decoder p ctx (ValuePropagator.contextKey p) v = Returns (ctxD, Some e) ->
        ValuePropagator.Extract p ctx h
          = Returns ((None, Some (newError "decode context value" e)), h)
        /\ (forall offset,
              newError "decode context value" e
                = Error "base64 decode context value" (CorruptInputError offset) ->
              e = Error "base64 decode context value" (CorruptInputError offset))
        /\ (errors.As e = false ->
              newError "decode context value" e = Error "decode context value" e
              /\ Error_Error (newError "decode context value" e)
                 = ("decode context value: " ++ Error_Error e)%string
              /\ has_label "base64 decode context value"
                   (newError "decode context value" e) = false)).
Proof.
  intros Hne. split.
  - intros v e Hdec.
    destruct (DecodeString_error_kind _ _ _ Hdec) as [offset ->].
    exists offset. split; [reflexivity | split; [|reflexivity]].
    now rewrite (Extract_wire_failure p ctx h v _ Hne Hdec).
  - intros v ctxD e Hdec Hd. split; [|split].
    + rewrite (Extract_decoded p ctx h v Hne Hdec). now rewrite Hd.
    + intros offset. unfold newError. destruct (errors.As e); [tauto | discriminate].
    + intros Has. rewrite (newError_foreign _ _ Has). repeat split.
      unfold has_label. cbn [errors.chain existsb].
      change (String.eqb "decode context value" "base64 decode context value") with false.
      cbn [orb]. now apply has_label_foreign.
Qed.

(** The field of ["str"] holds ["!foo"], which is not base64; the field of
    ["decode"] holds a JSON document that its decoder refuses. *)
Lemma C7_wire_format_failure_witness :
  ValuePropagator.Extract examples.strPropagator context.Background examples.brokenHeader
    = Returns ((None, Some (Error "base64 decode context value" (CorruptInputError 0))),
               examples.brokenHeader)
  /\ Error_Error (Error "base64 decode context value" (CorruptInputError 0))
     = "base64 decode context value: illegal base64 data at input byte 0".
Proof.
  destruct (C7_wire_format_failure examples.strPropagator context.Background
              examples.brokenHeader) as [Hwire _].
  - vm_compute. discriminate.
  - destruct (Hwire [] (CorruptInputError 0)) as (offset & Hoff & HE & HS).
    + vm_compute. reflexivity.
    + injection Hoff as <-. split; [exact HE | exact HS].
Defined.

(** ** The extract-on-receive decorator *)

(** C8. Extract-on-receive: when the wrapped primitive [m] returns a
    response and no error, and Extract from the response's header fails,
    the decorated call returns that response (its header as Extract left
    it, which is as it was for a register that only reads) together with
    the extraction error, and leaves the request as [m] left it; when the
    wrapped
    primitive [m'] fails, the decorated call returns its error as it is,
    with no response, whatever the register holds: Extract is not run. *)
Theorem C8_extract_on_receive
  (register : propagatorRegister.t)
  (m : http.RoundTripper) (req req1 : http.Request) (resp : http.Response)
  (ctx : context.Context) (e : error) (h1 : http.Header)
  (m' : http.RoundTripper) (req' req1' : http.Request)
  (resp' : option http.Response) (e' : error) :
  m req = Returns ((Some resp, None), req1) ->
  Extract register (http.Request_Context req1) (http.Response_Header resp)
    = Returns ((ctx, Some e), h1) ->
  m' req' = Returns ((resp', Some e'), req1') ->
  extractTransport.RoundTrip register m req
    = Returns ((Some (http.Build_Response (http.Response_StatusCode resp) h1
                        (http.Response_Body resp)), Some e), req1)
  /\ (h1 = http.Response_Header resp ->
      extractTransport.RoundTrip register m req = Returns ((Some resp, Some e), req1))
  /\ (forall register' : propagatorRegister.t,
        extractTransport.RoundTrip register' m' req' = Returns ((None, Some e'), req1')).
Proof.
  intros Hm HE Hm'.
  assert (HR : extractTransport.RoundTrip register m req
               = Returns ((Some (http.Build_Response (http.Response_StatusCode resp) h1
                                   (http.Response_Body resp)), Some e), req1)).
  { unfold extractTransport.RoundTrip. rewrite Hm. cbn [obind]. now rewrite HE. }
  split; [exact HR | split].
  - intros ->. rewrite HR. now destruct resp.
  - intros register'. unfold extractTransport.RoundTrip. now rewrite Hm'.
Qed.

(** The peer answers with a field of ["decode"] that the decoder refuses;
    and a peer that cannot be reached, with a register that would panic. *)
Lemma C8_extract_on_receive_witness :
  extractTransport.RoundTrip examples.testError
      (examples.answering examples.barHeader) examples.request
    = Returns ((Some (examples.response examples.barHeader),
                Some (Error "decode context value" (errorString "failed!"))),
               examples.request)
  /\ extractTransport.RoundTrip examples.threeOnExtract examples.unreachable examples.request
     = Returns ((None, Some (errorString "connection refused")), examples.request).
Proof.
  destruct (C8_extract_on_receive examples.testError
           (examples.answering examples.barHeader) examples.request examples.request
           (examples.response examples.barHeader)
           None (Error "decode context value" (errorString "failed!")) examples.barHeader
           examples.unreachable examples.request examples.request None
           (errorString "connection refused")) as (Hresp & _ & Hfail).
  - reflexivity.
  - vm_compute. reflexivity.
  - reflexivity.
  - split; [exact Hresp | apply Hfail].
Defined.

(** ** Frame *)

Lemma Inject_range_frame (vps : list ValuePropagator.t) (ctx : context.Context) :
  forall (h h' : http.Header) (r : option error),
    propagatorRegister.Inject_range (map ValuePropagator.asPropagator vps) ctx h
      = Returns (r, h') ->
    forall k,
      (forall p, In p vps ->
                 k <> textproto.CanonicalMIMEHeaderKey (headerKey (ValuePropagator.name p))) ->
      h' !! k = h !! k.
Proof.
  induction vps as [|p vps IH]; intros h h' r.
  - cbn. unfold ret. now intros [= _ <-].
  - cbn [map propagatorRegister.Inject_range]. unfold bind.
    cbn [Propagator.Inject ValuePropagator.asPropagator].
    destruct (ValuePropagator.Inject p ctx h) as [[err h1]|] eqn:E; [|discriminate].
    intros HR k Hk.
    assert (H1 : h1 !! k = h !! k).
    { destruct (Inject_header p ctx h h1 err E) as [-> | (data & _ & _ & ->)].
      - reflexivity.
      - apply Header_Set_other, Hk. now left. }
    destruct err as [err|].
    + unfold ret in HR. injection HR as _ <-. exact H1.
    + rewrite <- H1. apply (IH h1 h' r HR). intros q Hq. apply Hk. now right.
Qed.

Lemma Extract_range_header (vps : list ValuePropagator.t) :
  forall (ctx : context.Context) (h h' : http.Header) (r : context.Context * option error),
    propagatorRegister.Extract_range (map ValuePropagator.asPropagator vps) ctx h
      = Returns (r, h') ->
    h' = h.
Proof.
  induction vps as [|p vps IH]; intros ctx h h' r.
  - cbn. unfold ret. now intros [= _ <-].
  - cbn [map propagatorRegister.Extract_range]. unfold bind.
    cbn [Propagator.Extract ValuePropagator.asPropagator].
    destruct (ValuePropagator.Extract p ctx h) as [[[ctx1 err] h1]|] eqn:E; [|discriminate].
    apply Extract_header in E. subst h1.
    destruct err as [err|].
    + unfold ret. now intros [= _ <-].
    + apply IH.
Qed.

Lemma Inject_range_returns (vps : list ValuePropagator.t) (ctx : context.Context) :
  (forall p, In p vps ->
             ValuePropagator.encoder p ctx (ValuePropagator.contextKey p) <> Panics) ->
  forall h, exists r h',
    propagatorRegister.Inject_range (map ValuePropagator.asPropagator vps) ctx h
      = Returns (r, h').
Proof.
  induction vps as [|p vps IH]; intros Hret h.
  - cbn. unfold ret. eauto.
  - cbn [map propagatorRegister.Inject_range]. unfold bind.
    cbn [Propagator.Inject ValuePropagator.asPropagator].
    assert (Hp : exists r h1, ValuePropagator.Inject p ctx h = Returns (r, h1)).
    { unfold ValuePropagator.Inject, bind, call, ret, set.
      destruct (ValuePropagator.encoder p ctx _) as [[data [err|]]|] eqn:E.
      - eauto.
      - destruct (Nat.eqb _ _); eauto.
      - exfalso. apply (Hret p); [now left | exact E]. }
    destruct Hp as (r & h1 & ->).
    destruct r as [err|]; [unfold ret; eauto|].
    apply IH. intros q Hq. apply Hret. now right.
Qed.

Lemma Extract_range_returns (vps : list ValuePropagator.t) :
  (forall p, In p vps ->
             decoder_returns (ValuePropagator.decoder p) (ValuePropagator.contextKey p)) ->
  forall (c : context.chain) h, exists r,
    propagatorRegister.Extract_range (map ValuePropagator.asPropagator vps) (Some c) h
      = Returns (r, h).
Proof.
  induction vps as [|p vps IH]; intros Hret c h.
  - cbn. unfold ret. eauto.
  - cbn [map propagatorRegister.Extract_range]. unfold bind.
    cbn [Propagator.Extract ValuePropagator.asPropagator].
    assert (Hp : (exists err ctx1, ValuePropagator.Extract p (Some c) h
                                   = Returns ((ctx1, Some err), h))
                 \/ (exists c1, ValuePropagator.Extract p (Some c) h
                                = Returns ((Some c1, None), h))).
    { unfold ValuePropagator.Extract, bind, call, ret, get.
      destruct (String.eqb _ _); [right; eauto|].
      destruct (base64.DecodeString _) as [v [err|]]; [left; eauto|].
      destruct (Hret p (or_introl eq_refl) c v) as [(err & newCtx & ->) | (c' & ->)];
        [left | right]; eauto. }
    destruct Hp as [(err & ctx1 & ->) | (c1 & ->)]; [unfold ret; eauto|].
    apply IH. intros q Hq. apply Hret. now right.
Qed.

(** C9. Frame: for a register of value propagators, the header field of a
    propagator is ["x-ctxwire-"] followed by its name; the register's
    Inject leaves every entry of the header map untouched but those of the
    (canonical) fields of the registered propagators, so that every other
    header reads as before; the register's Extract leaves the header as it
    was.  Inject returns as soon as no encoder panics, and Extract, on a
    context that is not nil, as soon as the decoders return. *)
Theorem C9_frame (vps : list ValuePropagator.t) (ctx : context.Context) (h : http.Header) :
  let register := propagatorRegister.Build (map ValuePropagator.asPropagator vps) in
  let fields :=
    map (fun p => textproto.CanonicalMIMEHeaderKey (headerKey (ValuePropagator.name p))) vps in
  (forall name, headerKey name = ("x-ctxwire-" ++ name)%string)
  /\ (forall r h',
        propagatorRegister.Inject register ctx h = Returns (r, h') ->
        (forall k, ~ In k fields -> h' !! k = h !! k)
        /\ (forall key, ~ In (textproto.CanonicalMIMEHeaderKey key) fields ->
                        http.Header_Get h' key = http.Header_Get h key))
  /\ (forall r h', propagatorRegister.Extract register ctx h = Returns (r, h') -> h' = h)
  /\ ((forall p, In p vps ->
                 ValuePropagator.encoder p ctx (ValuePropagator.contextKey p) <> Panics) ->
      exists r h', propagatorRegister.Inject register ctx h = Returns (r, h'))
  /\ ((forall p, In p vps ->
                 decoder_returns (ValuePropagator.decoder p) (ValuePropagator.contextKey p)) ->
      forall c : context.chain,
      exists r, propagatorRegister.Extract register (Some c) h = Returns (r, h)).
Proof.
  intros register fields.
  assert (Hfields : forall k, ~ In k fields ->
            forall p, In p vps ->
              k <> textproto.CanonicalMIMEHeaderKey (headerKey (ValuePropagator.name p))).
  { intros k Hk p Hp ->. apply Hk. unfold fields.
    apply in_map_iff. now exists p. }
  split; [reflexivity | split; [|split; [|split]]].
  - intros r h' HI.
    assert (Hframe : forall k, ~ In k fields -> h' !! k = h !! k).
    { intros k Hk. apply (Inject_range_frame vps ctx h h' r HI). now apply Hfields. }
    split; [exact Hframe|].
    intros key Hkey. unfold http.Header_Get. now rewrite (Hframe _ Hkey).
  - intros r h'. apply Extract_range_header.
  - intros Hret. now apply Inject_range_returns.
  - intros Hret c. now apply Extract_range_returns.
Qed.

(** The JSON decoder returns. *)
Lemma decodeJSON_returns `{json.Codec} (key : Key) :
  decoder_returns (DecoderFunc decodeJSON) key.
Proof.
  intros c v. unfold DecoderFunc, decodeJSON.
  destruct (json.Unmarshal v) as [x [err|]]; [left | right]; eauto.
Qed.

(** A header of another name goes through Inject and Extract of the
    propagators ["str"] and ["encode"] as it was. *)
Lemma C9_frame_witness :
  (exists r h',
      propagatorRegister.Inject
        (propagatorRegister.Build
           (map ValuePropagator.asPropagator [examples.strPropagator; examples.encodePropagator]))
        examples.fooCtx examples.plainHeader = Returns (r, h')
      /\ http.Header_Get h' "content-type" = "text/plain")
  /\ (exists r,
        propagatorRegister.Extract
          (propagatorRegister.Build
             (map ValuePropagator.asPropagator [examples.strPropagator; examples.encodePropagator]))
          examples.fooCtx examples.plainHeader = Returns (r, examples.plainHeader)).
Proof.
  destruct (C9_frame [examples.strPropagator; examples.encodePropagator]
              examples.fooCtx examples.plainHeader)
    as (_ & Hsafe & _ & Hinj & Hext).
  split.
  - destruct Hinj as (r & h' & HI).
    { intros p [<- | [<- | []]]; vm_compute; discriminate. }
    exists r, h'. split; [exact HI|].
    destruct (Hsafe r h' HI) as [_ Hget]. rewrite Hget; [vm_compute; reflexivity|].
    vm_compute. intros [H | [H | []]]; discriminate H.
  - apply Hext.
    intros p [<- | [<- | []]]; apply (@decodeJSON_returns examples.literals).
Defined.

(** ** A stored nil *)

(** C10. For the JSON codec, a nil stored under the key and a key that is
    not bound cannot be told apart: [Value] is nil for both, the encoder
    returns the zero-length payload and no error for both, and Inject writes
    no field for either; so a nil stored on purpose, even over an earlier
    value, does not travel. *)
Theorem C10_stored_nil_is_absent `{J : json.Codec}
  (name : string) (key : Key) (parent c : context.chain) (h : http.Header) :
  context.bound c key = false ->
  let stored := Some (context.valueCtx parent key Nil) in
  let absent := Some c in
  (context.Value stored key = Returns Nil /\ context.Value absent key = Returns Nil)
  /\ (encodeJSON stored key = Returns ([], None) /\ encodeJSON absent key = Returns ([], None))
  /\ (ValuePropagator.Inject (NewJSONPropagator name key) stored h = Returns (None, h)
      /\ ValuePropagator.Inject (NewJSONPropagator name key) absent h = Returns (None, h)).
Proof.
  intros Hc stored absent.
  assert (Hs : context.value (context.valueCtx parent key Nil) key = Nil).
  { cbn. now rewrite String.eqb_refl. }
  pose proof (value_bound c key Hc) as Ha.
  repeat split.
  - cbn. now rewrite String.eqb_refl.
  - cbn. now rewrite Ha.
  - now apply encodeJSON_Nil.
  - now apply encodeJSON_Nil.
  - apply Inject_nothing. now apply encodeJSON_Nil.
  - apply Inject_nothing. now apply encodeJSON_Nil.
Qed.

(** Nil stored over ["foo"], next to the background context. *)
Lemma C10_stored_nil_is_absent_witness :
  ValuePropagator.Inject examples.strPropagator (Some examples.nilOverFoo) ∅ = Returns (None, ∅)
  /\ ValuePropagator.Inject examples.strPropagator context.Background ∅ = Returns (None, ∅).
Proof.
  apply (@C10_stored_nil_is_absent examples.literals "str" "strKey"
           (context.valueCtx context.background "strKey" (Str "foo")) context.background ∅).
  reflexivity.
Defined.

(** ** The call-level label *)

(** An error that carries no [*Error] does get the call-level label. *)
Lemma Inject_labels_foreign_error :
  Inject (propagatorRegister.Build [examples.refusing]) context.Background ∅
    = Returns (Some (Error "inject context values" (errorString "refused")), ∅)
  /\ Extract (propagatorRegister.Build [examples.refusing]) context.Background ∅
    = Returns ((None, Some (Error "extract context values" (errorString "refused"))), ∅)
  /\ Error_Error (Error "inject context values" (errorString "refused"))
     = "inject context values: refused".
Proof. repeat split. Qed.

(** ** The composed decorator *)


(** A successful exchange through the composed decorator: the header of the
    request carries the injected fields, and the context of the request is
    the one extracted from the response. *)
Lemma Transport_exchange :
  Transport (propagatorRegister.Build [ValuePropagator.asPropagator examples.strPropagator])
    (examples.answering
       (examples.carrier "x-ctxwire-str" (base64.EncodeToString examples.barJSON)))
    examples.request
  = Returns
      ((Some (examples.response
                (examples.carrier "x-ctxwire-str" (base64.EncodeToString examples.barJSON))),
        None),
       http.Build_Request "GET" "http://search/" examples.fooHeader
         (Some (context.valueCtx
                  (context.valueCtx context.background "strKey" (Str "foo"))
                  "strKey" (Str "bar")))).
Proof. vm_compute. reflexivity. Qed.

(** ** The earlier layout *)

Section PropagatorV1.
Variable p : V1.propagator.t.
Variable ctx : context.Context.
Variable h : http.Header.

(** The encoder's error comes back as it is. *)
Lemma V1_Inject_encoder_fails (data : bytes) (err : error) :
  V1.propagator.encoder p ctx (V1.propagator.contextKey p) = Returns (data, Some err) ->
  V1.propagator.Inject p ctx h = Returns (Some err, h).
Proof. intros E. unfold V1.propagator.Inject, bind, call. now rewrite E. Qed.

Lemma V1_Inject_nothing :
  V1.propagator.encoder p ctx (V1.propagator.contextKey p) = Returns ([], None) ->
  V1.propagator.Inject p ctx h = Returns (None, h).
Proof. intros E. unfold V1.propagator.Inject, bind, call. now rewrite E. Qed.

Lemma V1_Inject_payload (data : bytes) :
  V1.propagator.encoder p ctx (V1.propagator.contextKey p) = Returns (data, None) ->
  data <> [] ->
  V1.propagator.Inject p ctx h =
    Returns (None, http.Header_Set h (headerKey (V1.propagator.name p))
                     (base64.EncodeToString data)).
Proof.
  intros E Hne. unfold V1.propagator.Inject, bind, call. rewrite E.
  destruct data as [|b data]; [congruence | reflexivity].
Qed.

Lemma V1_Extract_absent :
  http.Header_Get h (headerKey (V1.propagator.name p)) = "" ->
  V1.propagator.Extract p ctx h = Returns ((ctx, None), h).
Proof. intros E. unfold V1.propagator.Extract, bind, get. now rewrite E. Qed.

(** The base64 error comes back as it is, with the nil context. *)
Lemma V1_Extract_wire_failure (v : bytes) (err : error) :
  http.Header_Get h (headerKey (V1.propagator.name p)) <> "" ->
  base64.DecodeString (http.Header_Get h (headerKey (V1.propagator.name p))) = (v, Some err) ->
  V1.propagator.Extract p ctx h = Returns ((None, Some err), h).
Proof.
  intros Hne E. unfold V1.propagator.Extract, bind, get.
  apply String.eqb_neq in Hne. now rewrite Hne, E.
Qed.

(** What the decoder returns is returned as it is, its context included. *)
Lemma V1_Extract_decoded (v : bytes) :
  http.Header_Get h (headerKey (V1.propagator.name p)) <> "" ->
  base64.DecodeString (http.Header_Get h (headerKey (V1.propagator.name p))) = (v, None) ->
  V1.propagator.Extract p ctx h =
    call (V1.propagator.decoder p ctx (V1.propagator.contextKey p) v) h.
Proof.
  intros Hne E. unfold V1.propagator.Extract, bind, get.
  apply String.eqb_neq in Hne. now rewrite Hne, E.
Qed.
End PropagatorV1.

(** Fail-void in the earlier layout: the register returns the nil context
    and B's error as it is, and the package wraps it once under its own
    label. *)
Lemma V1_Extract_fail_void
  (A : Propagator.t) (B : V1.propagator.t) (C : Propagator.t)
  (ctx ctxA ctxB : context.Context) (h hA : http.Header) (v : bytes) (e : error) :
  Propagator.Extract A ctx h = Returns ((ctxA, None), hA) ->
  http.Header_Get hA (headerKey (V1.propagator.name B)) <> "" ->
  base64.DecodeString (http.Header_Get hA (headerKey (V1.propagator.name B))) = (v, None) ->
  V1.propagator.decoder B ctxA (V1.propagator.contextKey B) v = Returns (ctxB, Some e) ->
  let register := propagatorRegister.Build [A; V1.propagator.asPropagator B; C] in
  propagatorRegister.Extract register ctx h = Returns ((None, Some e), hA)
  /\ V1.Extract register ctx h
     = Returns ((None, Some (Error "extract context from header" e)), hA).
Proof.
  intros HA Hne Hdec HD register.
  assert (HR : propagatorRegister.Extract register ctx h = Returns ((None, Some e), hA)).
  { unfold propagatorRegister.Extract, register. cbn [propagatorRegister.propagators].
    rewrite (Extract_range_cons_ok _ _ _ _ _ _ HA).
    apply Extract_range_cons_err with (ctx1 := ctxB).
    cbn [Propagator.Extract V1.propagator.asPropagator].
    rewrite (V1_Extract_decoded B ctxA hA v Hne Hdec). unfold call. now rewrite HD. }
  split; [exact HR|].
  unfold V1.Extract, bind. now rewrite HR.
Qed.

(** Fail-stop in the earlier layout. *)
Lemma V1_Inject_fail_stop
  (A : Propagator.t) (B : V1.propagator.t) (C : Propagator.t)
  (ctx : context.Context) (h hA : http.Header) (dataB : bytes) (e : error) :
  Propagator.Inject A ctx h = Returns (None, hA) ->
  V1.propagator.encoder B ctx (V1.propagator.contextKey B) = Returns (dataB, Some e) ->
  let register := propagatorRegister.Build [A; V1.propagator.asPropagator B; C] in
  propagatorRegister.Inject register ctx h = Returns (Some e, hA)
  /\ V1.Inject register ctx h = Returns (Some (Error "inject context into header" e), hA).
Proof.
  intros HA HB register.
  assert (HR : propagatorRegister.Inject register ctx h = Returns (Some e, hA)).
  { unfold propagatorRegister.Inject, register. cbn [propagatorRegister.propagators].
    rewrite (Inject_range_cons_ok A _ ctx h hA HA).
    apply Inject_range_cons_err.
    exact (V1_Inject_encoder_fails B ctx hA dataB e HB). }
  split; [exact HR|].
  unfold V1.Inject, bind. now rewrite HR.
Qed.

(** Round trip in the earlier layout: what the decoder returns on the
    payload is what Extract returns. *)
Lemma V1_round_trip (p : V1.propagator.t) (ctx ctx0 : context.Context) (data : bytes) :
  V1.propagator.encoder p ctx (V1.propagator.contextKey p) = Returns (data, None) ->
  data <> [] ->
  exists h,
    V1.propagator.Inject p ctx ∅ = Returns (None, h)
    /\ V1.propagator.Extract p ctx0 h
       = call (V1.propagator.decoder p ctx0 (V1.propagator.contextKey p) data) h.
Proof.
  intros E Hne.
  destruct (wire_round_trip ∅ (headerKey (V1.propagator.name p)) data Hne) as [Hget Hdec].
  eexists. split.
  - exact (V1_Inject_payload p ctx ∅ data E Hne).
  - exact (V1_Extract_decoded p ctx0 _ data Hget Hdec).
Qed.

(** A stored nil in the earlier layout. *)
Lemma V1_jsonEncoder_Nil `{json.Codec} (c : context.chain) (key : Key) :
  context.value c key = Nil -> V1.jsonEncoder (Some c) key = Returns ([], None).
Proof. intros E. unfold V1.jsonEncoder. cbn. now rewrite E. Qed.

(** [TestError]'s decoder in the earlier layout: one label, the package's. *)
Lemma V1_Extract_label :
  V1.Extract
    (propagatorRegister.Build
       [V1.propagator.asPropagator examples.strPropagatorV1;
        V1.propagator.asPropagator examples.decodePropagatorV1; examples.panicking])
    context.Background examples.fooBarHeader
  = Returns ((None, Some (Error "extract context from header" (errorString "failed!"))),
             examples.fooBarHeader).
Proof. vm_compute. reflexivity. Qed.

(** * Further properties *)

(** ** Configure *)

Lemma Inject_range_app_cases (pre ps : list Propagator.t) (ctx : context.Context)
  (h : http.Header) :
  propagatorRegister.Inject_range (pre ++ ps) ctx h =
    match propagatorRegister.Inject_range pre ctx h with
    | Returns (None, h1) => propagatorRegister.Inject_range ps ctx h1
    | Returns (Some err, h1) => Returns (Some err, h1)
    | Panics => Panics
    end.
Proof.
  revert h. induction pre as [|q pre IH]; intros h; [reflexivity|].
  cbn [propagatorRegister.Inject_range app]. unfold bind.
  destruct (Propagator.Inject q ctx h) as [[[err|] h']|]; [reflexivity | apply IH | reflexivity].
Qed.

(** The register never hands back a context together with an error. *)
Lemma Extract_range_void (ps : list Propagator.t) :
  forall (ctx c : context.Context) (h h' : http.Header) (e : error),
    propagatorRegister.Extract_range ps ctx h = Returns ((c, Some e), h') -> c = None.
Proof.
  induction ps as [|q ps IH]; intros ctx c h h' e.
  - cbn. unfold ret. discriminate.
  - cbn [propagatorRegister.Extract_range]. unfold bind.
    destruct (Propagator.Extract q ctx h) as [[[ctx1 [err|]] h1]|]; [|apply IH|discriminate].
    unfold ret. now intros [= <- _ _].
Qed.

Lemma Extract_range_app_cases (pre ps : list Propagator.t) (ctx : context.Context)
  (h : http.Header) :
  propagatorRegister.Extract_range (pre ++ ps) ctx h =
    match propagatorRegister.Extract_range pre ctx h with
    | Returns ((ctx1, None), h1) => propagatorRegister.Extract_range ps ctx1 h1
    | Returns ((ctx1, Some err), h1) => Returns ((None, Some err), h1)
    | Panics => Panics
    end.
Proof.
  revert ctx h. induction pre as [|q pre IH]; intros ctx h; [reflexivity|].
  cbn [propagatorRegister.Extract_range app]. unfold bind.
  destruct (Propagator.Extract q ctx h) as [[[ctx' [err|]] h']|];
    [reflexivity | apply IH | reflexivity].
Qed.

(** X1. Configure is cumulative: configuring twice is configuring once with
    both lists in that order; and Inject on the configured register runs
    the propagators that were there first, then the added ones on the
    header the first ones left.  An error or a panic of the first ones is
    the outcome, whatever was added. *)
Theorem X1_Configure_Inject
  (r : propagatorRegister.t) (ps qs : list Propagator.t)
  (ctx : context.Context) (h : http.Header) :
  Configure (Configure r ps) qs = Configure r (ps ++ qs)
  /\ propagatorRegister.Inject (Configure r ps) ctx h =
       match propagatorRegister.Inject r ctx h with
       | Returns (None, h1) => propagatorRegister.Inject (propagatorRegister.Build ps) ctx h1
       | Returns (Some err, h1) => Returns (Some err, h1)
       | Panics => Panics
       end.
Proof.
  split.
  - unfold Configure, propagatorRegister.add. cbn. now rewrite app_assoc.
  - unfold Configure, propagatorRegister.add, propagatorRegister.Inject.
    cbn [propagatorRegister.propagators]. apply Inject_range_app_cases.
Qed.

(** X2. Extract on a configured register threads the context through the
    propagators that were there first and hands the context they returned
    to the added ones; an error of the first ones is returned with the nil
    context, whatever was added. *)
Theorem X2_Configure_Extract
  (r : propagatorRegister.t) (ps : list Propagator.t)
  (ctx : context.Context) (h : http.Header) :
  propagatorRegister.Extract (Configure r ps) ctx h =
    match propagatorRegister.Extract r ctx h with
    | Returns ((ctx1, None), h1) =>
        propagatorRegister.Extract (propagatorRegister.Build ps) ctx1 h1
    | Returns ((_, Some err), h1) => Returns ((None, Some err), h1)
    | Panics => Panics
    end.
Proof.
  unfold Configure, propagatorRegister.add, propagatorRegister.Extract.
  cbn [propagatorRegister.propagators]. apply Extract_range_app_cases.
Qed.

(** ** Writing twice *)

Lemma Header_Set_Set (h : http.Header) (key v1 v2 : string) :
  http.Header_Set (http.Header_Set h key v1) key v2 = http.Header_Set h key v2.
Proof. unfold http.Header_Set. apply insert_insert_eq. Qed.

(** X3. Inject of a value propagator can be run again on the carrier it
    left: the call returns the same error or none and the carrier stays as
    it is.  A call that returned an error left the carrier untouched, and a
    call that changed the carrier left, under the propagator's field, one
    value that is not the empty string. *)
Theorem X3_Inject_idempotent
  (p : ValuePropagator.t) (ctx : context.Context) (h h1 : http.Header) (r : option error) :
  ValuePropagator.Inject p ctx h = Returns (r, h1) ->
  ValuePropagator.Inject p ctx h1 = Returns (r, h1)
  /\ (r <> None -> h1 = h)
  /\ (h1 <> h -> exists v, h1 !! field_of p = Some [v] /\ v <> "").
Proof.
  intros HI.
  assert (Hcases := HI).
  unfold ValuePropagator.Inject, bind, call, ret, set in Hcases.
  destruct (ValuePropagator.encoder p ctx _) as [[data [err|]]|] eqn:E; [| |discriminate].
  - injection Hcases as <- <-. split; [exact HI | split; [reflexivity | congruence]].
  - destruct data as [|b data]; cbn [length Nat.eqb] in Hcases.
    + injection Hcases as <- <-. split; [exact HI | split; [reflexivity | congruence]].
    + injection Hcases as <- <-. split; [|split].
      * rewrite (Inject_payload p ctx _ (b :: data) E) by discriminate.
        now rewrite Header_Set_Set.
      * congruence.
      * intros _. exists (base64.EncodeToString (b :: data)). split.
        -- unfold field_of, http.Header_Set. apply lookup_insert_eq.
        -- apply EncodeToString_nonempty. discriminate.
Qed.

Lemma X3_Inject_idempotent_witness :
  ValuePropagator.Inject examples.strPropagator examples.fooCtx examples.fooHeader
  = Returns (None, examples.fooHeader).
Proof.
  refine (proj1 (X3_Inject_idempotent examples.strPropagator examples.fooCtx ∅
                   examples.fooHeader None _)).
  vm_compute. reflexivity.
Defined.

Lemma write_all_snoc (ws : list (string * string)) (kv : string * string) (h : http.Header) :
  write_all (ws ++ [kv]) h = http.Header_Set (write_all ws h) (fst kv) (snd kv).
Proof. unfold write_all. now rewrite fold_left_app. Qed.

Lemma write_all_app (ws1 ws2 : list (string * string)) (h : http.Header) :
  write_all (ws1 ++ ws2) h = write_all ws2 (write_all ws1 h).
Proof. unfold write_all. apply fold_left_app. Qed.

Lemma Header_Set_comm (h : http.Header) (k1 v1 k2 v2 : string) :
  textproto.CanonicalMIMEHeaderKey k1 <> textproto.CanonicalMIMEHeaderKey k2 ->
  http.Header_Set (http.Header_Set h k1 v1) k2 v2
  = http.Header_Set (http.Header_Set h k2 v2) k1 v1.
Proof. intros Hne. unfold http.Header_Set. now apply insert_insert_ne. Qed.

Lemma Header_Set_Set_canonical (h : http.Header) (k1 v1 k2 v2 : string) :
  textproto.CanonicalMIMEHeaderKey k1 = textproto.CanonicalMIMEHeaderKey k2 ->
  http.Header_Set (http.Header_Set h k1 v1) k2 v2 = http.Header_Set h k2 v2.
Proof. intros E. unfold http.Header_Set. rewrite E. apply insert_insert_eq. Qed.

(** A write that is done again at the end can be left out at the start. *)
Lemma write_all_absorb (ws : list (string * string)) (k v : string) :
  forall g : http.Header,
    http.Header_Set (write_all ws (http.Header_Set g k v)) k v
    = http.Header_Set (write_all ws g) k v.
Proof.
  induction ws as [|[k' v'] ws IH]; intros g.
  - cbn. apply Header_Set_Set.
  - cbn [write_all fold_left fst snd]. fold (write_all ws).
    destruct (decide (textproto.CanonicalMIMEHeaderKey k = textproto.CanonicalMIMEHeaderKey k'))
      as [E|Hne].
    + now rewrite (Header_Set_Set_canonical g k v k' v' E).
    + rewrite (Header_Set_comm g k v k' v' Hne). apply IH.
Qed.

Lemma write_all_idempotent (ws : list (string * string)) (h : http.Header) :
  write_all ws (write_all ws h) = write_all ws h.
Proof.
  induction ws as [|kv ws IH] using rev_ind; [reflexivity|].
  rewrite !write_all_snoc. destruct kv as [k v]. cbn [fst snd].
  rewrite write_all_absorb. now rewrite IH.
Qed.

(** What Inject of a value propagator does depends on the context only: an
    error or none, and at most one write. *)
Lemma Inject_writes (p : ValuePropagator.t) (ctx : context.Context) :
  (forall h, ValuePropagator.Inject p ctx h = Panics)
  \/ exists r ws, forall h, ValuePropagator.Inject p ctx h = Returns (r, write_all ws h).
Proof.
  unfold ValuePropagator.Inject, bind, call, ret, set.
  destruct (ValuePropagator.encoder p ctx _) as [[data [err|]]|].
  - right. exists (Some (newError "encode context value" err)), []. reflexivity.
  - destruct (Nat.eqb (length data) 0).
    + right. exists None, []. reflexivity.
    + right. exists None, [(headerKey (ValuePropagator.name p), base64.EncodeToString data)].
      reflexivity.
  - now left.
Qed.

(** Likewise for a register of value propagators. *)
Lemma Inject_range_writes (vps : list ValuePropagator.t) (ctx : context.Context) :
  (forall h, propagatorRegister.Inject_range (map ValuePropagator.asPropagator vps) ctx h
             = Panics)
  \/ exists r ws, forall h,
       propagatorRegister.Inject_range (map ValuePropagator.asPropagator vps) ctx h
       = Returns (r, write_all ws h).
Proof.
  induction vps as [|p vps IH].
  - right. exists None, []. reflexivity.
  - cbn [map propagatorRegister.Inject_range]. unfold bind.
    cbn [Propagator.Inject ValuePropagator.asPropagator].
    destruct (Inject_writes p ctx) as [Hp | (r & ws & Hp)].
    + left. intros h. now rewrite Hp.
    + destruct r as [err|].
      * right. exists (Some err), ws. intros h. now rewrite Hp.
      * destruct IH as [IH | (r' & ws' & IH)].
        -- left. intros h. rewrite Hp. apply IH.
        -- right. exists r', (ws ++ ws'). intros h. rewrite Hp, IH.
           now rewrite write_all_app.
Qed.

(** X4. Inject of a register of value propagators can be run again on the
    carrier it left, also when two of them share a field: the same error or
    none comes back and the carrier stays as it is.  The error or none that
    Inject returns depends on the context alone, not on what the carrier
    held. *)
Theorem X4_register_Inject_idempotent
  (vps : list ValuePropagator.t) (ctx : context.Context) (h h1 : http.Header)
  (r : option error) :
  let register := propagatorRegister.Build (map ValuePropagator.asPropagator vps) in
  propagatorRegister.Inject register ctx h = Returns (r, h1) ->
  propagatorRegister.Inject register ctx h1 = Returns (r, h1)
  /\ (forall h' : http.Header, result (propagatorRegister.Inject register ctx h') = Returns r).
Proof.
  intros register. unfold register, propagatorRegister.Inject.
  cbn [propagatorRegister.propagators].
  destruct (Inject_range_writes vps ctx) as [Hp | (r' & ws & Hw)].
  - now rewrite Hp.
  - rewrite !Hw. intros [= <- <-]. split.
    + now rewrite write_all_idempotent.
    + intros h'. now rewrite Hw.
Qed.

Lemma X4_register_Inject_idempotent_witness :
  propagatorRegister.Inject
    (propagatorRegister.Build (map ValuePropagator.asPropagator samples.strEncode))
    examples.fooEncodeCtx examples.fooHeader
  = Returns (Some (Error "encode context value" (errorString "failed!")), examples.fooHeader)
  /\ result (propagatorRegister.Inject
               (propagatorRegister.Build (map ValuePropagator.asPropagator samples.strEncode))
               examples.fooEncodeCtx examples.plainHeader)
     = Returns (Some (Error "encode context value" (errorString "failed!"))).
Proof.
  refine (let H := X4_register_Inject_idempotent samples.strEncode examples.fooEncodeCtx ∅
                     examples.fooHeader
                     (Some (Error "encode context value" (errorString "failed!"))) _
          in conj (proj1 H) (proj2 H examples.plainHeader)).
  vm_compute. reflexivity.
Defined.

(** ** Reading *)

(** What Extract of a value propagator returns depends on the carrier
    through [h.Get] of the propagator's field only. *)
Lemma Extract_result_Get
  (p : ValuePropagator.t) (ctx : context.Context) (h h' : http.Header) :
  http.Header_Get h (headerKey (ValuePropagator.name p))
  = http.Header_Get h' (headerKey (ValuePropagator.name p)) ->
  result (ValuePropagator.Extract p ctx h) = result (ValuePropagator.Extract p ctx h').
Proof.
  intros E. unfold ValuePropagator.Extract, bind, get, call, ret. rewrite E.
  destruct (String.eqb _ _); [reflexivity|].
  destruct (base64.DecodeString _) as [v [err|]]; [reflexivity|].
  destruct (ValuePropagator.decoder p ctx _ v) as [[newCtx [err|]]|]; reflexivity.
Qed.

(** X5. Extract of a value propagator reads one field and writes none: on
    two carriers that agree on the propagator's field it returns the same
    context and error, or panics on both, and the carrier it returns is the
    one it was given. *)
Theorem X5_Extract_reads_its_field
  (p : ValuePropagator.t) (ctx : context.Context) (h h' : http.Header) :
  h !! field_of p = h' !! field_of p ->
  result (ValuePropagator.Extract p ctx h) = result (ValuePropagator.Extract p ctx h')
  /\ (forall r h1, ValuePropagator.Extract p ctx h = Returns (r, h1) -> h1 = h).
Proof.
  intros E. split.
  - apply Extract_result_Get. unfold http.Header_Get. fold (field_of p). now rewrite E.
  - intros r h1. apply Extract_header.
Qed.

Lemma X5_Extract_reads_its_field_witness :
  result (ValuePropagator.Extract examples.strPropagator context.Background examples.fooHeader)
  = result (ValuePropagator.Extract examples.strPropagator context.Background
              examples.fooBarHeader).
Proof.
  refine (proj1 (X5_Extract_reads_its_field examples.strPropagator context.Background
                   examples.fooHeader examples.fooBarHeader _)).
  vm_compute. reflexivity.
Defined.

(** ** The field of a name *)

Lemma in_all_ascii (c : ascii) : In c all_ascii.
Proof.
  unfold all_ascii. rewrite <- (ascii_nat_embedding c).
  apply in_map, in_seq. pose proof (nat_ascii_bounded c). lia.
Qed.

(** Two bytes that differ by case only are both token bytes or both not,
    and are canonicalized to the same byte. *)
Lemma case_variants (c1 c2 : ascii) :
  lowerByte c1 = lowerByte c2 ->
  textproto.validHeaderFieldByte c1 = textproto.validHeaderFieldByte c2
  /\ forall upper, textproto.canonicalize upper (String c1 "")
                   = textproto.canonicalize upper (String c2 "").
Proof.
  assert (Hall : forallb (fun a =>
            forallb (fun b =>
              implb (Ascii.eqb (lowerByte a) (lowerByte b))
                (Bool.eqb (textproto.validHeaderFieldByte a) (textproto.validHeaderFieldByte b)
                 && String.eqb (textproto.canonicalize true (String a ""))
                      (textproto.canonicalize true (String b ""))
                 && String.eqb (textproto.canonicalize false (String a ""))
                      (textproto.canonicalize false (String b "")))) all_ascii) all_ascii
          = true) by (vm_compute; reflexivity).
  intros E.
  rewrite forallb_forall in Hall. specialize (Hall c1 (in_all_ascii c1)).
  rewrite forallb_forall in Hall. specialize (Hall c2 (in_all_ascii c2)).
  rewrite E, Ascii.eqb_refl in Hall. cbn [implb] in Hall.
  apply andb_prop in Hall as [Hall Hf]. apply andb_prop in Hall as [Hv Ht].
  split.
  - now apply Bool.eqb_prop.
  - intros [|]; now apply String.eqb_eq.
Qed.

Lemma canonicalize_cons (upper : bool) (c : ascii) (rest : string) :
  textproto.canonicalize upper (String c rest) =
    match textproto.canonicalize upper (String c "") with
    | String c' _ => String c' (textproto.canonicalize (Ascii.eqb c' "-"%char) rest)
    | EmptyString => EmptyString
    end.
Proof. reflexivity. Qed.

Lemma canonicalize_case (s : string) :
  forall (t : string) (upper : bool),
    lowerString s = lowerString t ->
    textproto.canonicalize upper s = textproto.canonicalize upper t.
Proof.
  induction s as [|c s IH]; intros [|d t] upper; cbn [lowerString]; try discriminate.
  - reflexivity.
  - intros [= Hc Hs]. rewrite (canonicalize_cons upper c), (canonicalize_cons upper d).
    destruct (case_variants c d Hc) as [_ ->].
    destruct (textproto.canonicalize upper (String d "")) as [|c' r]; [reflexivity|].
    f_equal. now apply IH.
Qed.

Lemma valid_case (s : string) :
  forall t : string,
    lowerString s = lowerString t ->
    forallb textproto.validHeaderFieldByte (list_ascii_of_string s)
    = forallb textproto.validHeaderFieldByte (list_ascii_of_string t).
Proof.
  induction s as [|c s IH]; intros [|d t]; cbn [lowerString]; try discriminate.
  - reflexivity.
  - intros [= Hc Hs]. cbn [list_ascii_of_string forallb].
    destruct (case_variants c d Hc) as [-> _]. f_equal. now apply IH.
Qed.

(** The field of a name in the header map. *)
Lemma Canonical_headerKey (name : string) :
  textproto.CanonicalMIMEHeaderKey (headerKey name) =
    if forallb textproto.validHeaderFieldByte (list_ascii_of_string name)
    then ("X-Ctxwire-" ++ textproto.canonicalize true name)%string
    else ("x-ctxwire-" ++ name)%string.
Proof.
  unfold textproto.CanonicalMIMEHeaderKey, headerKey.
  change (list_ascii_of_string ("x-ctxwire-" ++ name))
    with (list_ascii_of_string "x-ctxwire-" ++ list_ascii_of_string name).
  rewrite forallb_app.
  change (forallb textproto.validHeaderFieldByte (list_ascii_of_string "x-ctxwire-")) with true.
  cbn [andb].
  destruct (forallb _ _); reflexivity.
Qed.

(** X7. Propagator names made of token bytes are told apart up to the case
    of their letters only: two such names that differ by case have the same
    field in the carrier, and what is set under one is what [h.Get] reads
    under the other. *)
Theorem X7_names_ignore_case (n1 n2 : string) :
  forallb textproto.validHeaderFieldByte (list_ascii_of_string n1) = true ->
  lowerString n1 = lowerString n2 ->
  textproto.CanonicalMIMEHeaderKey (headerKey n1) = textproto.CanonicalMIMEHeaderKey (headerKey n2)
  /\ (forall h v, http.Header_Get (http.Header_Set h (headerKey n1) v) (headerKey n2) = v).
Proof.
  intros Hv Hl.
  assert (E : textproto.CanonicalMIMEHeaderKey (headerKey n1)
              = textproto.CanonicalMIMEHeaderKey (headerKey n2)).
  { rewrite !Canonical_headerKey. rewrite <- (valid_case n1 n2 Hl), Hv.
    now rewrite (canonicalize_case n1 n2 true Hl). }
  split; [exact E|].
  intros h v. unfold http.Header_Get, http.Header_Set. rewrite E.
  now rewrite lookup_insert_eq.
Qed.

Lemma X7_names_ignore_case_witness :
  textproto.CanonicalMIMEHeaderKey (headerKey "str")
  = textproto.CanonicalMIMEHeaderKey (headerKey "STR")
  /\ http.Header_Get (http.Header_Set examples.plainHeader (headerKey "str") "ImZvbyI=")
       (headerKey "STR") = "ImZvbyI=".
Proof.
  refine (let H := X7_names_ignore_case "str" "STR" _ _
          in conj (proj1 H) (proj2 H examples.plainHeader "ImZvbyI=")).
  - vm_compute. reflexivity.
  - vm_compute. reflexivity.
Defined.

Lemma lower_canonical_byte (upper : bool) (c : ascii) :
  lowerString (textproto.canonicalize upper (String c "")) = String (lowerByte c) "".
Proof.
  assert (Hall : forallb (fun a =>
            String.eqb (lowerString (textproto.canonicalize true (String a "")))
              (String (lowerByte a) "")
            && String.eqb (lowerString (textproto.canonicalize false (String a "")))
                 (String (lowerByte a) "")) all_ascii = true) by (vm_compute; reflexivity).
  rewrite forallb_forall in Hall. specialize (Hall c (in_all_ascii c)).
  apply andb_prop in Hall as [Ht Hf].
  destruct upper; now apply String.eqb_eq.
Qed.

Lemma lower_canonicalize (s : string) :
  forall upper, lowerString (textproto.canonicalize upper s) = lowerString s.
Proof.
  induction s as [|c s IH]; intros upper; [reflexivity|].
  rewrite canonicalize_cons.
  pose proof (lower_canonical_byte upper c) as Hc.
  destruct (textproto.canonicalize upper (String c "")) as [|c' r]; [discriminate|].
  cbn [lowerString] in Hc |- *. injection Hc as Hc _. now rewrite Hc, IH.
Qed.

(** Two names share a field only when they differ by case at most. *)
Lemma fields_collide_by_case_only (n1 n2 : string) :
  textproto.CanonicalMIMEHeaderKey (headerKey n1) = textproto.CanonicalMIMEHeaderKey (headerKey n2) ->
  lowerString n1 = lowerString n2.
Proof.
  rewrite !Canonical_headerKey.
  destruct (forallb _ (list_ascii_of_string n1)), (forallb _ (list_ascii_of_string n2));
    cbn; intros E; try discriminate E.
  - injection E as E.
    change (textproto.canonicalize true n1 = textproto.canonicalize true n2) in E.
    rewrite <- (lower_canonicalize n1 true), <- (lower_canonicalize n2 true).
    now rewrite E.
  - injection E as E. change (n1 = n2) in E. now rewrite E.
Qed.

(** X8. Propagators whose names differ by more than the case of letters do
    not interfere: Inject of one leaves what [h.Get] reads under the other
    name as it was, and with it what Extract of a propagator of that name
    returns. *)
Theorem X8_distinct_names_do_not_interfere
  (A : ValuePropagator.t) (n : string) (ctx : context.Context) (h h1 : http.Header)
  (r : option error) :
  lowerString (ValuePropagator.name A) <> lowerString n ->
  ValuePropagator.Inject A ctx h = Returns (r, h1) ->
  http.Header_Get h1 (headerKey n) = http.Header_Get h (headerKey n)
  /\ (forall (B : ValuePropagator.t) (ctx0 : context.Context),
        ValuePropagator.name B = n ->
        result (ValuePropagator.Extract B ctx0 h1) = result (ValuePropagator.Extract B ctx0 h)).
Proof.
  intros Hne HI.
  assert (Hget : http.Header_Get h1 (headerKey n) = http.Header_Get h (headerKey n)).
  { destruct (Inject_header A ctx h h1 r HI) as [-> | (data & _ & _ & ->)]; [reflexivity|].
    unfold http.Header_Get. rewrite Header_Set_other; [reflexivity|].
    intros E. apply Hne. symmetry. now apply fields_collide_by_case_only. }
  split; [exact Hget|].
  intros B ctx0 <-. now apply Extract_result_Get.
Qed.

Lemma X8_distinct_names_do_not_interfere_witness :
  http.Header_Get
    (http.Header_Set examples.barHeader "x-ctxwire-str" (base64.EncodeToString examples.fooJSON))
    (headerKey "decode")
  = http.Header_Get examples.barHeader (headerKey "decode").
Proof.
  refine (proj1 (X8_distinct_names_do_not_interfere examples.strPropagator "decode"
                   examples.fooCtx examples.barHeader _ None _ _)).
  - vm_compute. discriminate.
  - vm_compute. reflexivity.
Defined.

(** ** Two propagators on one field *)

(** X6. When two value propagators of a register share a field and both
    encoders return a payload, the carrier holds the payload of the one
    registered last alone, and Extract of the first one then hands that
    payload, not its own, to its decoder. *)
Theorem X6_same_field_last_writer
  (A B : ValuePropagator.t) (ctx ctx0 : context.Context) (h : http.Header)
  (dataA dataB : bytes) :
  field_of A = field_of B ->
  ValuePropagator.encoder A ctx (ValuePropagator.contextKey A) = Returns (dataA, None) ->
  ValuePropagator.encoder B ctx (ValuePropagator.contextKey B) = Returns (dataB, None) ->
  dataB <> [] ->
  let register :=
    propagatorRegister.Build [ValuePropagator.asPropagator A; ValuePropagator.asPropagator B] in
  let h' := http.Header_Set h (headerKey (ValuePropagator.name B))
              (base64.EncodeToString dataB) in
  propagatorRegister.Inject register ctx h = Returns (None, h')
  /\ http.Header_Get h' (headerKey (ValuePropagator.name A)) = base64.EncodeToString dataB
  /\ ValuePropagator.Extract A ctx0 h' =
       match ValuePropagator.decoder A ctx0 (ValuePropagator.contextKey A) dataB with
       | Returns (newCtx, None) => Returns ((newCtx, None), h')
       | Returns (_, Some err) =>
           Returns ((None, Some (newError "decode context value" err)), h')
       | Panics => Panics
       end.
Proof.
  intros Hf EA EB HneB register h'. unfold field_of in Hf.
  assert (Hget : http.Header_Get h' (headerKey (ValuePropagator.name A))
                 = base64.EncodeToString dataB).
  { unfold h', http.Header_Get, http.Header_Set. rewrite Hf. now rewrite lookup_insert_eq. }
  split; [|split; [exact Hget|]].
  - unfold register, propagatorRegister.Inject. cbn [propagatorRegister.propagators].
    destruct dataA as [|a dataA].
    + rewrite (Inject_range_cons_ok (ValuePropagator.asPropagator A) _ ctx h h
                 (Inject_nothing A ctx h EA)).
      rewrite (Inject_range_cons_ok (ValuePropagator.asPropagator B) _ ctx h h'
                 (Inject_payload B ctx h dataB EB HneB)).
      reflexivity.
    + rewrite (Inject_range_cons_ok (ValuePropagator.asPropagator A) _ ctx h _
                 (Inject_payload A ctx h (a :: dataA) EA ltac:(discriminate))).
      rewrite (Inject_range_cons_ok (ValuePropagator.asPropagator B) _ ctx _ h').
      * reflexivity.
      * cbn [Propagator.Inject ValuePropagator.asPropagator].
        rewrite (Inject_payload B ctx _ dataB EB HneB). unfold h'.
        unfold http.Header_Set. rewrite Hf. now rewrite insert_insert_eq.
  - apply Extract_decoded.
    + rewrite Hget. now apply EncodeToString_nonempty.
    + rewrite Hget. apply DecodeString_EncodeToString.
Qed.

Lemma X6_same_field_last_writer_witness :
  propagatorRegister.Inject
    (propagatorRegister.Build
       [ValuePropagator.asPropagator examples.strPropagator;
        ValuePropagator.asPropagator samples.upperPropagator])
    samples.fooRawCtx ∅
  = Returns (None, samples.rawHeader)
  /\ http.Header_Get samples.rawHeader (headerKey "str")
     = base64.EncodeToString (bytes_of_string "raw")
  /\ ValuePropagator.Extract examples.strPropagator context.Background samples.rawHeader
     = Returns ((None, Some (Error "decode context value" (errorString "invalid character"))),
                samples.rawHeader).
Proof.
  refine (X6_same_field_last_writer examples.strPropagator samples.upperPropagator
            samples.fooRawCtx context.Background ∅ examples.fooJSON (bytes_of_string "raw")
            _ _ _ _).
  - vm_compute. reflexivity.
  - vm_compute. reflexivity.
  - vm_compute. reflexivity.
  - vm_compute. discriminate.
Defined.

(** ** The decorators *)




(** Extract of a register of value propagators whose decoders return: on a
    context that is not nil it returns either an error with the nil
    context, or a context that is not nil with no error. *)
Lemma Extract_range_shape (vps : list ValuePropagator.t) :
  (forall p, In p vps ->
             decoder_returns (ValuePropagator.decoder p) (ValuePropagator.contextKey p)) ->
  forall (c : context.chain) (h : http.Header),
    (exists e, propagatorRegister.Extract_range (map ValuePropagator.asPropagator vps) (Some c) h
               = Returns ((None, Some e), h))
    \/ (exists c', propagatorRegister.Extract_range (map ValuePropagator.asPropagator vps)
                     (Some c) h
                   = Returns ((Some c', None), h)).
Proof.
  induction vps as [|p vps IH]; intros Hret c h.
  - right. exists c. reflexivity.
  - cbn [map propagatorRegister.Extract_range]. unfold bind.
    cbn [Propagator.Extract ValuePropagator.asPropagator].
    assert (Hp : (exists e, ValuePropagator.Extract p (Some c) h = Returns ((None, Some e), h))
                 \/ (exists c1, ValuePropagator.Extract p (Some c) h
                                = Returns ((Some c1, None), h))).
    { unfold ValuePropagator.Extract, bind, call, ret, get.
      destruct (String.eqb _ _); [right; eauto|].
      destruct (base64.DecodeString _) as [v [err|]]; [left; eauto|].
      destruct (Hret p (or_introl eq_refl) c v) as [(err & newCtx & ->) | (c' & ->)];
        [left | right]; eauto. }
    destruct Hp as [(e & ->) | (c1 & ->)]; [left; unfold ret; eauto|].
    apply IH. intros q Hq. apply Hret. now right.
Qed.

(** X10. The decorator that extracts on receive, over a register of value
    propagators whose decoders return: when the primitive answers with a
    response and no error, the decorator does not panic.  Either Extract
    fails, and the response comes back together with the error while the
    request stays as the primitive left it; or Extract succeeds, and the
    response comes back with no error while the request is rebound to the
    extracted context, its method, URL and header kept. *)
Theorem X10_extract_on_receive_returns
  (vps : list ValuePropagator.t) (m : http.RoundTripper)
  (req req1 : http.Request) (resp : http.Response) :
  let register := propagatorRegister.Build (map ValuePropagator.asPropagator vps) in
  (forall p, In p vps ->
             decoder_returns (ValuePropagator.decoder p) (ValuePropagator.contextKey p)) ->
  m req = Returns ((Some resp, None), req1) ->
  (exists e,
      Extract register (http.Request_Context req1) (http.Response_Header resp)
        = Returns ((None, Some e), http.Response_Header resp)
      /\ extractTransport.RoundTrip register m req = Returns ((Some resp, Some e), req1))
  \/ (exists c,
        Extract register (http.Request_Context req1) (http.Response_Header resp)
          = Returns ((Some c, None), http.Response_Header resp)
        /\ extractTransport.RoundTrip register m req
           = Returns ((Some resp, None),
                      http.Build_Request (http.Request_Method req1) (http.Request_URL req1)
                        (http.Request_Header req1) (Some c))).
Proof.
  intros register Hret Hm.
  assert (Hctx : exists c1, http.Request_Context req1 = Some c1).
  { unfold http.Request_Context. destruct (http.Request_ctx req1); eauto. }
  destruct Hctx as [c1 Hc1].
  unfold extractTransport.RoundTrip. rewrite Hm. cbn [obind].
  unfold Extract, propagatorRegister.Extract, bind, register.
  cbn [propagatorRegister.propagators]. rewrite Hc1.
  destruct (Extract_range_shape vps Hret c1 (http.Response_Header resp))
    as [(e & ->) | (c' & ->)]; cbn [obind ret].
  - left. exists (newError "extract context values" e). split; [reflexivity|].
    now destruct resp.
  - right. exists c'. split; [reflexivity|]. now destruct resp.
Qed.

Lemma X10_extract_on_receive_returns_witness :
  (exists e,
      Extract (propagatorRegister.Build (map ValuePropagator.asPropagator samples.strDecode))
        (http.Request_Context examples.request)
        (http.Response_Header (examples.response examples.barHeader))
        = Returns ((None, Some e), http.Response_Header (examples.response examples.barHeader))
      /\ extractTransport.RoundTrip
           (propagatorRegister.Build (map ValuePropagator.asPropagator samples.strDecode))
           (examples.answering examples.barHeader) examples.request
         = Returns ((Some (examples.response examples.barHeader), Some e), examples.request))
  \/ (exists c,
        Extract (propagatorRegister.Build (map ValuePropagator.asPropagator samples.strDecode))
          (http.Request_Context examples.request)
          (http.Response_Header (examples.response examples.barHeader))
          = Returns ((Some c, None),
                     http.Response_Header (examples.response examples.barHeader))
        /\ extractTransport.RoundTrip
             (propagatorRegister.Build (map ValuePropagator.asPropagator samples.strDecode))
             (examples.answering examples.barHeader) examples.request
           = Returns ((Some (examples.response examples.barHeader), None),
                      http.Build_Request (http.Request_Method examples.request)
                        (http.Request_URL examples.request)
                        (http.Request_Header examples.request) (Some c))).
Proof.
  refine (X10_extract_on_receive_returns samples.strDecode
            (examples.answering examples.barHeader) examples.request examples.request
            (examples.response examples.barHeader) _ _).
  - intros p [<- | [<- | []]].
    + apply decodeJSON_returns.
    + intros c v. left. exists (errors.New "failed!"), None. reflexivity.
  - reflexivity.
Defined.

(** X11. The decorator that extracts on receive panics in two cases that
    the interfaces allow: a decoder that returns neither a context nor an
    error makes Extract return the nil context, which the rebinding of the
    request refuses; and a primitive that returns neither a response nor an
    error makes the decorator read the header of a nil response. *)
Theorem X11_extract_on_receive_panics
  (register : propagatorRegister.t) (m m' : http.RoundTripper)
  (req req1 req' req1' : http.Request) (resp : http.Response) (h1 : http.Header) :
  m req = Returns ((Some resp, None), req1) ->
  Extract register (http.Request_Context req1) (http.Response_Header resp)
    = Returns ((None, None), h1) ->
  m' req' = Returns ((None, None), req1') ->
  extractTransport.RoundTrip register m req = Panics
  /\ (forall register', extractTransport.RoundTrip register' m' req' = Panics).
Proof.
  intros Hm HE Hm'. split.
  - unfold extractTransport.RoundTrip. rewrite Hm. cbn [obind]. now rewrite HE.
  - intros register'. unfold extractTransport.RoundTrip. now rewrite Hm'.
Qed.

Lemma X11_extract_on_receive_panics_witness :
  extractTransport.RoundTrip
    (propagatorRegister.Build [ValuePropagator.asPropagator samples.voidPropagator])
    (examples.answering examples.barHeader) examples.request = Panics
  /\ extractTransport.RoundTrip examples.testError samples.voidTripper examples.request
     = Panics.
Proof.
  refine (let H := X11_extract_on_receive_panics
                     (propagatorRegister.Build
                        [ValuePropagator.asPropagator samples.voidPropagator])
                     (examples.answering examples.barHeader) samples.voidTripper
                     examples.request examples.request examples.request examples.request
                     (examples.response examples.barHeader) examples.barHeader _ _ _
          in conj (proj1 H) (proj2 H examples.testError)).
  - reflexivity.
  - vm_compute. reflexivity.
  - reflexivity.
Defined.

(** X12. The composed decorator, when every stage succeeds: the primitive
    is called once, with the request carrying the header Inject left; the
    caller gets the response of the primitive and no error, and the request
    ends up bound to the context extracted from the header of the response
    into the context of the request as the primitive left it. *)
Theorem X12_Transport_success
  (register : propagatorRegister.t) (t : http.RoundTripper)
  (req req1 : http.Request) (resp : http.Response) (c : context.chain)
  (h1 h2 : http.Header) :
  let sent := http.Build_Request (http.Request_Method req) (http.Request_URL req) h1
                (http.Request_ctx req) in
  Inject register (http.Request_Context req) (http.Request_Header req) = Returns (None, h1) ->
  t sent = Returns ((Some resp, None), req1) ->
  Extract register (http.Request_Context req1) (http.Response_Header resp)
    = Returns ((Some c, None), h2) ->
  Transport register t req
  = Returns ((Some (http.Build_Response (http.Response_StatusCode resp) h2
                      (http.Response_Body resp)), None),
             http.Build_Request (http.Request_Method req1) (http.Request_URL req1)
               (http.Request_Header req1) (Some c)).
Proof.
  intros sent HI Ht HE.
  unfold Transport, InjectTransport, ExtractTransport, injectTransport.RoundTrip.
  rewrite HI. cbn [obind]. fold sent.
  unfold extractTransport.RoundTrip. rewrite Ht. cbn [obind]. now rewrite HE.
Qed.

Lemma X12_Transport_success_witness :
  Transport (propagatorRegister.Build [ValuePropagator.asPropagator examples.strPropagator])
    (examples.answering
       (examples.carrier "x-ctxwire-str" (base64.EncodeToString examples.barJSON)))
    examples.request
  = Returns
      ((Some (examples.response
                (examples.carrier "x-ctxwire-str" (base64.EncodeToString examples.barJSON))),
        None),
       http.Build_Request "GET" "http://search/" examples.fooHeader
         (Some (context.valueCtx
                  (context.valueCtx context.background "strKey" (Str "foo"))
                  "strKey" (Str "bar")))).
Proof.
  refine (X12_Transport_success
            (propagatorRegister.Build [ValuePropagator.asPropagator examples.strPropagator])
            (examples.answering
               (examples.carrier "x-ctxwire-str" (base64.EncodeToString examples.barJSON)))
            examples.request
            (http.Build_Request "GET" "http://search/" examples.fooHeader examples.fooCtx)
            (examples.response
               (examples.carrier "x-ctxwire-str" (base64.EncodeToString examples.barJSON)))
            (context.valueCtx (context.valueCtx context.background "strKey" (Str "foo"))
               "strKey" (Str "bar"))
            examples.fooHeader
            (examples.carrier "x-ctxwire-str" (base64.EncodeToString examples.barJSON))
            _ _ _).
  - vm_compute. reflexivity.
  - reflexivity.
  - vm_compute. reflexivity.
Defined.



(** ** The JSON codec *)

(** X14. The JSON decoder extends the context it is given: on a document
    that [json.Unmarshal] accepts it returns a context where the key holds
    the decoded value and every other key holds what it held before. *)
Theorem X14_decodeJSON_extends `{J : json.Codec}
  (c : context.chain) (key : Key) (data : bytes) (v : any) :
  json.Unmarshal data = (v, None) ->
  exists c',
    decodeJSON (Some c) key data = Returns (Some c', None)
    /\ context.Value (Some c') key = Returns v
    /\ (forall key', key' <> key ->
          context.Value (Some c') key' = context.Value (Some c) key').
Proof.
  intros Hu. exists (context.valueCtx c key v). split; [|split].
  - now apply decodeJSON_value.
  - cbn. now rewrite String.eqb_refl.
  - intros key' Hne. cbn. apply String.eqb_neq in Hne.
    rewrite String.eqb_sym. now rewrite Hne.
Qed.

Lemma X14_decodeJSON_extends_witness :
  exists c',
    @decodeJSON examples.literals
      (Some (context.valueCtx context.background "userKey" (Str "ann"))) "strKey"
      examples.barJSON
    = Returns (Some c', None)
    /\ context.Value (Some c') "strKey" = Returns (Str "bar")
    /\ (forall key', key' <> "strKey" ->
          context.Value (Some c') key'
          = context.Value (Some (context.valueCtx context.background "userKey" (Str "ann")))
              key').
Proof.
  refine (X14_decodeJSON_extends (J := examples.literals)
            (context.valueCtx context.background "userKey" (Str "ann")) "strKey"
            examples.barJSON (Str "bar") _).
  vm_compute. reflexivity.
Defined.

(** X15. The edges of the JSON codec.  A document that [json.Unmarshal]
    refuses makes the decoder return the nil context and that very error,
    on every context, the nil one included; a document it accepts makes the
    decoder panic on the nil context.  The encoder panics on the nil
    context.  A value that [json.Marshal] refuses makes Inject of a JSON
    propagator return that error under the label of the encoding stage,
    the carrier untouched. *)
Theorem X15_JSON_codec_edges `{J : json.Codec}
  (key : Key) (data data' : bytes) (v v' : any) (e : error) :
  json.Unmarshal data = (v, Some e) ->
  json.Unmarshal data' = (v', None) ->
  (forall ctx, decodeJSON ctx key data = Returns (None, Some e))
  /\ decodeJSON None key data' = Panics
  /\ encodeJSON None key = Panics
  /\ (forall c, context.value c key <> Nil ->
        forall d err, json.Marshal (context.value c key) = (d, Some err) ->
        forall name h,
          ValuePropagator.Inject (NewJSONPropagator name key) (Some c) h
          = Returns (Some (newError "encode context value" err), h)).
Proof.
  intros Hu Hu'. split; [|split; [|split]].
  - intros ctx. unfold decodeJSON. now rewrite Hu.
  - unfold decodeJSON. now rewrite Hu'.
  - reflexivity.
  - intros c Hv d err Hm name h.
    apply Inject_encoder_fails with (data := d).
    unfold NewJSONPropagator, NewValuePropagator, EncoderFunc.
    cbn [ValuePropagator.encoder ValuePropagator.contextKey].
    rewrite encodeJSON_value by exact Hv. now rewrite Hm.
Qed.

Lemma X15_JSON_codec_edges_witness :
  @decodeJSON examples.literals None "strKey" (bytes_of_string "nul")
  = Returns (None, Some (errorString "invalid character"))
  /\ @decodeJSON examples.literals None "strKey" examples.barJSON = Panics
  /\ @encodeJSON examples.literals None "strKey" = Panics.
Proof.
  refine (let H := X15_JSON_codec_edges (J := examples.literals) "strKey"
                     (bytes_of_string "nul") examples.barJSON Nil (Str "bar")
                     (errorString "invalid character") _ _
          in conj (proj1 H None) (conj (proj1 (proj2 H)) (proj1 (proj2 (proj2 H))))).
  - vm_compute. reflexivity.
  - vm_compute. reflexivity.
Defined.

(** ** Errors *)

(** X16. [newError] wraps at most once.  Whatever labels later stages
    apply to an error it returned, the error stays as it is.  An error that
    holds no [*Error] in its chain is wrapped: its text is the label, a
    colon and the text of the cause, and [Unwrap] gives the cause back.  An
    error that holds one is returned as it is, the label dropped. *)
Theorem X16_newError_absorbs (labels : list string) (m : string) (e : error) :
  fold_left (fun err label => newError label err) labels (newError m e) = newError m e
  /\ errors.As (newError m e) = true
  /\ (errors.As e = false ->
        Error_Error (newError m e) = (m ++ ": " ++ Error_Error e)%string
        /\ errors.Unwrap (newError m e) = Some e
        /\ Error_Unwrap (newError m e) = Some e)
  /\ (errors.As e = true -> newError m e = e).
Proof.
  split; [|split; [|split]].
  - induction labels as [|l labels IH]; [reflexivity|].
    cbn [fold_left]. now rewrite newError_newError.
  - apply As_newError.
  - intros Has. rewrite (newError_foreign _ _ Has). repeat split.
  - intros Has. now rewrite (newError_own _ _ Has).
Qed.

Lemma X16_newError_absorbs_witness :
  newError "inject context values" (newError "encode context value" (errors.New "failed!"))
  = newError "encode context value" (errors.New "failed!")
  /\ Error_Error (newError "encode context value" (errors.New "failed!"))
     = "encode context value: failed!".
Proof.
  refine (let H := X16_newError_absorbs ["inject context values"] "encode context value"
                     (errors.New "failed!")
          in conj (proj1 H) (proj1 (proj1 (proj2 (proj2 H)) _))).
  reflexivity.
Defined.

(** ** The shape of what Extract returns *)

Lemma ValuePropagator_Extract_shape
  (p : ValuePropagator.t) (ctx : context.Context) (h : http.Header) :
  ValuePropagator.Extract p ctx h = Panics
  \/ (exists e, ValuePropagator.Extract p ctx h = Returns ((None, Some e), h))
  \/ (exists c, ValuePropagator.Extract p ctx h = Returns ((c, None), h)).
Proof.
  unfold ValuePropagator.Extract, bind, get, call, ret.
  destruct (String.eqb _ _); [eauto|].
  destruct (base64.DecodeString _) as [v [err|]]; [eauto|].
  destruct (ValuePropagator.decoder p ctx _ v) as [[newCtx [err|]]|]; eauto.
Qed.

Lemma Extract_range_outcomes (ps : list Propagator.t) :
  forall (ctx : context.Context) (h : http.Header),
    propagatorRegister.Extract_range ps ctx h = Panics
    \/ (exists e h', propagatorRegister.Extract_range ps ctx h = Returns ((None, Some e), h'))
    \/ (exists c h', propagatorRegister.Extract_range ps ctx h = Returns ((c, None), h')).
Proof.
  intros ctx h.
  destruct (propagatorRegister.Extract_range ps ctx h) as [[[c [e|]] h']|] eqn:E; eauto.
  rewrite (Extract_range_void ps ctx c h h' e E). eauto.
Qed.

(** X17. Extract never hands back a context together with an error, at any
    level and in both layouts: a call panics, or returns an error with the
    nil context, or returns a context with no error.  This holds for every
    register, whatever the propagators in it return. *)
Theorem X17_Extract_never_both
  (register : propagatorRegister.t) (p : ValuePropagator.t)
  (ctx : context.Context) (h : http.Header) :
  (propagatorRegister.Extract register ctx h = Panics
   \/ (exists e h', propagatorRegister.Extract register ctx h = Returns ((None, Some e), h'))
   \/ (exists c h', propagatorRegister.Extract register ctx h = Returns ((c, None), h')))
  /\ (Extract register ctx h = Panics
      \/ (exists e h', Extract register ctx h = Returns ((None, Some e), h'))
      \/ (exists c h', Extract register ctx h = Returns ((c, None), h')))
  /\ (V1.Extract register ctx h = Panics
      \/ (exists e h', V1.Extract register ctx h = Returns ((None, Some e), h'))
      \/ (exists c h', V1.Extract register ctx h = Returns ((c, None), h')))
  /\ (ValuePropagator.Extract p ctx h = Panics
      \/ (exists e, ValuePropagator.Extract p ctx h = Returns ((None, Some e), h))
      \/ (exists c, ValuePropagator.Extract p ctx h = Returns ((c, None), h))).
Proof.
  split; [|split; [|split]].
  - apply Extract_range_outcomes.
  - unfold Extract, bind, ret. unfold propagatorRegister.Extract.
    destruct (Extract_range_outcomes (propagatorRegister.propagators register) ctx h)
      as [-> | [(e & h' & ->) | (c & h' & ->)]]; eauto.
  - unfold V1.Extract, bind, ret. unfold propagatorRegister.Extract.
    destruct (Extract_range_outcomes (propagatorRegister.propagators register) ctx h)
      as [-> | [(e & h' & ->) | (c & h' & ->)]]; eauto.
  - apply ValuePropagator_Extract_shape.
Qed.

(** ** Nothing to carry *)

(** X21. With encoders that are silent on absence, a context that holds no
    value under any registered key makes Inject return no error and leave
    the carrier as it is; and a carrier that holds none of the registered
    fields makes Extract return the very context it was given, the nil
    context included, with no error. *)
Theorem X21_nothing_to_carry
  (vps : list ValuePropagator.t) (c : context.chain) (ctx0 : context.Context)
  (h h0 : http.Header) :
  let register := propagatorRegister.Build (map ValuePropagator.asPropagator vps) in
  (forall p, In p vps -> silent_on_absence (ValuePropagator.encoder p)) ->
  (forall p, In p vps -> context.value c (ValuePropagator.contextKey p) = Nil) ->
  (forall p, In p vps -> http.Header_Get h0 (headerKey (ValuePropagator.name p)) = "") ->
  Inject register (Some c) h = Returns (None, h)
  /\ Extract register ctx0 h0 = Returns ((ctx0, None), h0).
Proof.
  intros register Hsilent Habsent Hfields.
  assert (HI : propagatorRegister.Inject_range (map ValuePropagator.asPropagator vps) (Some c) h
               = Returns (None, h)).
  { clear Hfields. induction vps as [|p vps IH]; [reflexivity|].
    cbn [map].
    rewrite (Inject_range_cons_ok (ValuePropagator.asPropagator p) _ (Some c) h h).
    - apply IH; intros q Hq; [apply Hsilent | apply Habsent]; now right.
    - apply Inject_nothing. apply Hsilent; [now left|]. apply Habsent. now left. }
  assert (HE : propagatorRegister.Extract_range (map ValuePropagator.asPropagator vps) ctx0 h0
               = Returns ((ctx0, None), h0)).
  { clear HI Hsilent Habsent. induction vps as [|p vps IH]; [reflexivity|].
    cbn [map].
    rewrite (Extract_range_cons_ok (ValuePropagator.asPropagator p) _ ctx0 ctx0 h0 h0).
    - apply IH. intros q Hq. apply Hfields. now right.
    - apply Extract_absent. apply Hfields. now left. }
  split.
  - unfold Inject, propagatorRegister.Inject, bind, register.
    cbn [propagatorRegister.propagators]. now rewrite HI.
  - unfold Extract, propagatorRegister.Extract, bind, register.
    cbn [propagatorRegister.propagators]. now rewrite HE.
Qed.

Lemma X21_nothing_to_carry_witness :
  Inject (propagatorRegister.Build (map ValuePropagator.asPropagator samples.strInt))
    (Some context.background) examples.plainHeader
  = Returns (None, examples.plainHeader)
  /\ Extract (propagatorRegister.Build (map ValuePropagator.asPropagator samples.strInt))
       None examples.plainHeader
     = Returns ((None, None), examples.plainHeader).
Proof.
  refine (X21_nothing_to_carry samples.strInt context.background None
            examples.plainHeader examples.plainHeader _ _ _).
  - intros p [<- | [<- | []]]; apply encodeJSON_silent.
  - intros p [<- | [<- | []]]; reflexivity.
  - intros p [<- | [<- | []]]; vm_compute; reflexivity.
Defined.

(** ** A register as a propagator *)

(** X22. A register is a propagator itself, and registering it is the same
    as registering its propagators in its place: Inject and Extract of the
    outer register return what they return on the flattened list. *)
Theorem X22_register_nests
  (r : propagatorRegister.t) (ps : list Propagator.t)
  (ctx : context.Context) (h : http.Header) :
  propagatorRegister.Inject
    (propagatorRegister.Build (propagatorRegister.asPropagator r :: ps)) ctx h
  = propagatorRegister.Inject
      (propagatorRegister.Build (propagatorRegister.propagators r ++ ps)) ctx h
  /\ propagatorRegister.Extract
       (propagatorRegister.Build (propagatorRegister.asPropagator r :: ps)) ctx h
     = propagatorRegister.Extract
         (propagatorRegister.Build (propagatorRegister.propagators r ++ ps)) ctx h.
Proof.
  unfold propagatorRegister.Inject, propagatorRegister.Extract.
  cbn [propagatorRegister.propagators]. split.
  - rewrite Inject_range_app_cases.
    cbn [propagatorRegister.Inject_range]. unfold bind.
    cbn [Propagator.Inject propagatorRegister.asPropagator]. unfold propagatorRegister.Inject.
    destruct (propagatorRegister.Inject_range (propagatorRegister.propagators r) ctx h)
      as [[[err|] h1]|]; reflexivity.
  - rewrite Extract_range_app_cases.
    cbn [propagatorRegister.Extract_range]. unfold bind.
    cbn [Propagator.Extract propagatorRegister.asPropagator]. unfold propagatorRegister.Extract.
    destruct (propagatorRegister.Extract_range (propagatorRegister.propagators r) ctx h)
      as [[[c1 [err|]] h1]|]; reflexivity.
Qed.


(** ** The carrier after Inject *)

(** The members of a list of literals are distinct. *)
Ltac distinct :=
  repeat (apply List.NoDup_cons; [cbn; intuition discriminate |]); apply List.NoDup_nil.

(** Inject of value propagators with distinct fields whose encoders all
    return a payload: each field holds the payload of its propagator, or
    is as before when the payload has length zero. *)
Lemma Inject_range_carrier (vps : list ValuePropagator.t) (ctx : context.Context) :
  List.NoDup (map field_of vps) ->
  (forall p, In p vps ->
     exists data, ValuePropagator.encoder p ctx (ValuePropagator.contextKey p)
                  = Returns (data, None)) ->
  forall h0 : http.Header,
  exists h,
    propagatorRegister.Inject_range (map ValuePropagator.asPropagator vps) ctx h0
      = Returns (None, h)
    /\ (forall p data,
          In p vps ->
          ValuePropagator.encoder p ctx (ValuePropagator.contextKey p) = Returns (data, None) ->
          h !! field_of p = match data with
                            | [] => h0 !! field_of p
                            | _ => Some [base64.EncodeToString data]
                            end)
    /\ (forall k, ~ In k (map field_of vps) -> h !! k = h0 !! k).
Proof.
  induction vps as [|p vps IH]; intros Hnd Henc h0.
  - exists h0. cbn. repeat split; tauto.
  - cbn [map] in Hnd. apply NoDup_cons_iff in Hnd as [Hp Hnd].
    destruct (Henc p (or_introl eq_refl)) as [data Ep].
    assert (Hstep : exists h1,
               ValuePropagator.Inject p ctx h0 = Returns (None, h1)
               /\ h1 !! field_of p = match data with
                                     | [] => h0 !! field_of p
                                     | _ => Some [base64.EncodeToString data]
                                     end
               /\ (forall k, k <> field_of p -> h1 !! k = h0 !! k)).
    { destruct data as [|b data].
      - exists h0. split; [now apply Inject_nothing | split; [reflexivity | tauto]].
      - eexists. split; [apply (Inject_payload p ctx h0 (b :: data) Ep); discriminate|].
        split.
        + unfold field_of, http.Header_Set. apply lookup_insert_eq.
        + intros k Hk. now apply Header_Set_other. }
    destruct Hstep as (h1 & HI & Hown & Hother).
    destruct (IH Hnd (fun q Hq => Henc q (or_intror Hq)) h1) as (h & HR & Hfields & Hframe).
    exists h. split; [|split].
    + cbn [map]. now rewrite (Inject_range_cons_ok (ValuePropagator.asPropagator p) _ ctx h0 h1 HI).
    + intros q d [<- | Hq] Eq.
      * rewrite Ep in Eq. injection Eq as <-.
        rewrite (Hframe _ Hp). exact Hown.
      * rewrite (Hfields q d Hq Eq). destruct d; [|reflexivity].
        apply Hother. intros E. apply Hp. rewrite <- E. now apply in_map.
    + intros k Hk. cbn [map] in Hk.
      rewrite Hframe by (intros Hin; apply Hk; now right).
      apply Hother. intros ->. apply Hk. now left.
Qed.

(** X18. The carrier that Inject fills from nothing.  For a register of
    value propagators with distinct fields whose encoders all return a
    payload, Inject returns no error and the carrier holds, under the field
    of each propagator, the base64 text of its payload alone; a propagator
    whose payload has length zero has no field, and no other field
    exists. *)
Theorem X18_Inject_carrier
  (vps : list ValuePropagator.t) (ctx : context.Context) :
  List.NoDup (map field_of vps) ->
  (forall p, In p vps ->
     exists data, ValuePropagator.encoder p ctx (ValuePropagator.contextKey p)
                  = Returns (data, None)) ->
  exists h,
    Inject (propagatorRegister.Build (map ValuePropagator.asPropagator vps)) ctx ∅
      = Returns (None, h)
    /\ (forall p data,
          In p vps ->
          ValuePropagator.encoder p ctx (ValuePropagator.contextKey p) = Returns (data, None) ->
          http.Header_Get h (headerKey (ValuePropagator.name p)) = base64.EncodeToString data
          /\ h !! field_of p = match data with
                               | [] => None
                               | _ => Some [base64.EncodeToString data]
                               end)
    /\ (forall k, ~ In k (map field_of vps) -> h !! k = None).
Proof.
  intros Hnd Henc.
  destruct (Inject_range_carrier vps ctx Hnd Henc ∅) as (h & HR & Hfields & Hframe).
  exists h. split; [|split].
  - unfold Inject, propagatorRegister.Inject, bind. cbn [propagatorRegister.propagators].
    now rewrite HR.
  - intros p data Hp Ep. specialize (Hfields p data Hp Ep).
    rewrite lookup_empty in Hfields. split.
    + unfold http.Header_Get. fold (field_of p). rewrite Hfields. now destruct data.
    + exact Hfields.
  - intros k Hk. rewrite (Hframe k Hk). apply lookup_empty.
Qed.

Lemma X18_Inject_carrier_witness :
  exists h,
    Inject (propagatorRegister.Build (map ValuePropagator.asPropagator samples.strInt))
      (Some samples.fooTrueChain) ∅
      = Returns (None, h)
    /\ (forall p data,
          In p samples.strInt ->
          ValuePropagator.encoder p (Some samples.fooTrueChain) (ValuePropagator.contextKey p)
            = Returns (data, None) ->
          http.Header_Get h (headerKey (ValuePropagator.name p)) = base64.EncodeToString data
          /\ h !! field_of p = match data with
                               | [] => None
                               | _ => Some [base64.EncodeToString data]
                               end)
    /\ (forall k, ~ In k (map field_of samples.strInt) -> h !! k = None).
Proof.
  refine (X18_Inject_carrier samples.strInt (Some samples.fooTrueChain) _ _).
  - vm_compute. distinct.
  - intros p [<- | [<- | []]]; eexists; vm_compute; reflexivity.
Defined.

(** X19. Reading back what Inject wrote.  From the carrier that such a
    register filled from nothing, Extract of any one of its propagators
    hands the decoder the very bytes its encoder returned, and returns what
    the decoder returns; where the encoder returned a payload of length
    zero, the decoder is not called and the context comes back as it
    is. *)
Theorem X19_Extract_own_payload
  (vps : list ValuePropagator.t) (ctx ctx0 : context.Context)
  (h : http.Header) (p : ValuePropagator.t) (data : bytes) :
  List.NoDup (map field_of vps) ->
  (forall q, In q vps ->
     exists d, ValuePropagator.encoder q ctx (ValuePropagator.contextKey q)
               = Returns (d, None)) ->
  Inject (propagatorRegister.Build (map ValuePropagator.asPropagator vps)) ctx ∅
    = Returns (None, h) ->
  In p vps ->
  ValuePropagator.encoder p ctx (ValuePropagator.contextKey p) = Returns (data, None) ->
  ValuePropagator.Extract p ctx0 h =
    match data with
    | [] => Returns ((ctx0, None), h)
    | _ =>
        match ValuePropagator.decoder p ctx0 (ValuePropagator.contextKey p) data with
        | Returns (newCtx, None) => Returns ((newCtx, None), h)
        | Returns (_, Some err) =>
            Returns ((None, Some (newError "decode context value" err)), h)
        | Panics => Panics
        end
    end.
Proof.
  intros Hnd Henc HI Hp Ep.
  destruct (Inject_range_carrier vps ctx Hnd Henc ∅) as (h' & HR & Hfields & _).
  assert (h' = h) as ->.
  { unfold Inject, propagatorRegister.Inject, bind in HI.
    cbn [propagatorRegister.propagators] in HI. rewrite HR in HI. unfold ret in HI.
    congruence. }
  specialize (Hfields p data Hp Ep). rewrite lookup_empty in Hfields.
  assert (Hget : http.Header_Get h (headerKey (ValuePropagator.name p))
                 = base64.EncodeToString data).
  { unfold http.Header_Get. fold (field_of p). rewrite Hfields. now destruct data. }
  destruct data as [|b data].
  - now apply Extract_absent.
  - apply Extract_decoded.
    + rewrite Hget. apply EncodeToString_nonempty. discriminate.
    + rewrite Hget. apply DecodeString_EncodeToString.
Qed.

Lemma X19_Extract_own_payload_witness :
  ValuePropagator.Extract examples.strPropagator context.Background samples.strIntHeader
  = Returns ((examples.fooCtx, None), samples.strIntHeader).
Proof.
  refine (X19_Extract_own_payload samples.strInt (Some samples.fooTrueChain)
            context.Background samples.strIntHeader examples.strPropagator examples.fooJSON
            _ _ _ _ _).
  - vm_compute. distinct.
  - intros p [<- | [<- | []]]; eexists; vm_compute; reflexivity.
  - vm_compute. reflexivity.
  - now left.
  - vm_compute. reflexivity.
Defined.

(** ** A register of JSON propagators, end to end *)

Lemma value_other (c : context.chain) (k k' : Key) (v : any) :
  k <> k' -> context.value (context.valueCtx c k v) k' = context.value c k'.
Proof. intros Hne. cbn. apply String.eqb_neq in Hne. now rewrite Hne. Qed.

Lemma value_same (c : context.chain) (k : Key) (v : any) :
  context.value (context.valueCtx c k v) k = v.
Proof. cbn. now rewrite String.eqb_refl. Qed.

(** Extract of JSON propagators from a carrier whose fields are either
    missing or the document of the value that [c] holds. *)
Lemma Extract_range_JSON `{json.Codec} (nks : list (string * Key)) (c : context.chain)
  (h : http.Header) :
  List.NoDup (map snd nks) ->
  (forall nk, In nk nks ->
     (context.value c (snd nk) = Nil /\ http.Header_Get h (headerKey (fst nk)) = "")
     \/ (context.value c (snd nk) <> Nil
         /\ exists d, d <> []
              /\ http.Header_Get h (headerKey (fst nk)) = base64.EncodeToString d
              /\ json.Unmarshal d = (context.value c (snd nk), None))) ->
  forall c0 : context.chain,
  exists c',
    propagatorRegister.Extract_range
      (map ValuePropagator.asPropagator (jsonPropagators nks)) (Some c0) h
      = Returns ((Some c', None), h)
    /\ (forall nk, In nk nks -> context.value c (snd nk) <> Nil ->
                   context.value c' (snd nk) = context.value c (snd nk))
    /\ (forall k, ~ In k (map snd nks) \/ context.value c k = Nil ->
                  context.value c' k = context.value c0 k).
Proof.
  induction nks as [|[n k] nks IH]; intros Hnd Hfields c0.
  - exists c0. cbn. repeat split; tauto.
  - cbn [map snd] in Hnd. apply NoDup_cons_iff in Hnd as [Hk Hnd].
    assert (Htail : forall nk, In nk nks ->
              (context.value c (snd nk) = Nil /\ http.Header_Get h (headerKey (fst nk)) = "")
              \/ (context.value c (snd nk) <> Nil
                  /\ exists d, d <> []
                       /\ http.Header_Get h (headerKey (fst nk)) = base64.EncodeToString d
                       /\ json.Unmarshal d = (context.value c (snd nk), None)))
      by (intros nk Hnk; apply Hfields; now right).
    assert (Hstep : exists c1,
               ValuePropagator.Extract (NewJSONPropagator n k) (Some c0) h
               = Returns ((Some c1, None), h)
               /\ (context.value c k <> Nil -> context.value c1 k = context.value c k)
               /\ (context.value c k = Nil -> c1 = c0)
               /\ (forall k', k' <> k -> context.value c1 k' = context.value c0 k')).
    { destruct (Hfields (n, k) (or_introl eq_refl)) as [[Hnil Hget] | (Hv & d & Hd & Hget & Hu)];
        cbn [fst snd] in *.
      - exists c0. split; [now apply Extract_absent | repeat split; tauto].
      - exists (context.valueCtx c0 k (context.value c k)). split; [|split; [|split]].
        + rewrite (Extract_decoded (NewJSONPropagator n k) (Some c0) h d).
          * unfold NewJSONPropagator, NewValuePropagator, DecoderFunc.
            cbn [ValuePropagator.decoder ValuePropagator.contextKey].
            now rewrite (decodeJSON_value c0 k d _ Hu).
          * cbn [NewJSONPropagator NewValuePropagator ValuePropagator.name].
            rewrite Hget. now apply EncodeToString_nonempty.
          * cbn [NewJSONPropagator NewValuePropagator ValuePropagator.name].
            rewrite Hget. apply DecodeString_EncodeToString.
        + intros _. apply value_same.
        + tauto.
        + intros k' Hk'. apply value_other. congruence. }
    destruct Hstep as (c1 & HE & Hown & Hnil & Hother).
    destruct (IH Hnd Htail c1) as (c' & HR & Hvals & Hframe).
    exists c'. split; [|split].
    + cbn [jsonPropagators map fst snd].
      rewrite (Extract_range_cons_ok
                 (ValuePropagator.asPropagator (NewJSONPropagator n k)) _
                 (Some c0) (Some c1) h h HE).
      exact HR.
    + intros nk [<- | Hnk] Hv; cbn [snd] in *.
      * rewrite (Hframe k (or_introl Hk)). now apply Hown.
      * now apply Hvals.
    + intros k' Hk'. cbn [map snd] in Hk'.
      destruct (String.eqb_spec k' k) as [-> | Hne].
      * rewrite (Hframe k (or_introl Hk)).
        destruct Hk' as [Hk' | Hk']; [exfalso; apply Hk'; now left|].
        now rewrite (Hnil Hk').
      * rewrite Hframe; [now apply Hother|].
        destruct Hk' as [Hk' | Hk']; [left; intros Hin; apply Hk'; now right | now right].
Qed.

(** X20. A register of JSON propagators, end to end.  With distinct
    fields and distinct keys, and every value under a registered key either
    nil or one that the JSON codec carries there and back, Inject of a
    context into the empty carrier followed by Extract from that carrier
    into any context succeeds, and the extracted context holds, under each
    registered key, the value of the injected context; a key that is not
    registered, or whose value was nil, keeps what the receiving context
    held. *)
Theorem X20_JSON_register_round_trip `{J : json.Codec}
  (nks : list (string * Key)) (c c0 : context.chain) :
  let register :=
    propagatorRegister.Build (map ValuePropagator.asPropagator (jsonPropagators nks)) in
  List.NoDup (map field_of (jsonPropagators nks)) ->
  List.NoDup (map snd nks) ->
  (forall nk, In nk nks ->
     context.value c (snd nk) = Nil \/ round_trips (context.value c (snd nk))) ->
  exists h c',
    Inject register (Some c) ∅ = Returns (None, h)
    /\ Extract register (Some c0) h = Returns ((Some c', None), h)
    /\ (forall nk, In nk nks -> context.value c (snd nk) <> Nil ->
                   context.value c' (snd nk) = context.value c (snd nk))
    /\ (forall k, ~ In k (map snd nks) \/ context.value c k = Nil ->
                  context.value c' k = context.value c0 k).
Proof.
  intros register Hfields Hkeys Hvals.
  assert (Henc : forall nk, In nk nks ->
            (context.value c (snd nk) = Nil
             /\ encodeJSON (Some c) (snd nk) = Returns ([], None))
            \/ (context.value c (snd nk) <> Nil
                /\ exists d, d <> []
                     /\ encodeJSON (Some c) (snd nk) = Returns (d, None)
                     /\ json.Unmarshal d = (context.value c (snd nk), None))).
  { intros nk Hnk. destruct (Hvals nk Hnk) as [Hnil | (d & Hm & Hd & Hu)].
    - left. split; [exact Hnil | now apply encodeJSON_Nil].
    - destruct (context.value c (snd nk)) eqn:E.
      + left. split; [reflexivity | now apply encodeJSON_Nil].
      + right. split; [discriminate|]. exists d. repeat split; try assumption.
        rewrite encodeJSON_value by (rewrite E; discriminate). now rewrite E, Hm.
      + right. split; [discriminate|]. exists d. repeat split; try assumption.
        rewrite encodeJSON_value by (rewrite E; discriminate). now rewrite E, Hm.
      + right. split; [discriminate|]. exists d. repeat split; try assumption.
        rewrite encodeJSON_value by (rewrite E; discriminate). now rewrite E, Hm. }
  destruct (Inject_range_carrier (jsonPropagators nks) (Some c) Hfields) with (h0 := (∅ : http.Header))
    as (h & HI & Hcarrier & _).
  { intros p Hp. unfold jsonPropagators in Hp. apply in_map_iff in Hp as (nk & <- & Hnk).
    cbn [NewJSONPropagator NewValuePropagator ValuePropagator.encoder
           ValuePropagator.contextKey]. unfold EncoderFunc.
    destruct (Henc nk Hnk) as [[_ E] | (_ & d & _ & E & _)]; eauto. }
  assert (Hget : forall nk, In nk nks ->
            (context.value c (snd nk) = Nil /\ http.Header_Get h (headerKey (fst nk)) = "")
            \/ (context.value c (snd nk) <> Nil
                /\ exists d, d <> []
                     /\ http.Header_Get h (headerKey (fst nk)) = base64.EncodeToString d
                     /\ json.Unmarshal d = (context.value c (snd nk), None))).
  { intros nk Hnk.
    assert (Hp : In (NewJSONPropagator (fst nk) (snd nk)) (jsonPropagators nks))
      by (unfold jsonPropagators; apply in_map_iff; eauto).
    destruct (Henc nk Hnk) as [[Hnil E] | (Hv & d & Hd & E & Hu)].
    - left. split; [exact Hnil|].
      pose proof (Hcarrier _ [] Hp E) as Hl. rewrite lookup_empty in Hl.
      unfold http.Header_Get. unfold field_of in Hl. cbn in Hl. now rewrite Hl.
    - right. split; [exact Hv|]. exists d. repeat split; try assumption.
      pose proof (Hcarrier _ d Hp E) as Hl.
      unfold http.Header_Get. unfold field_of in Hl. cbn in Hl. rewrite Hl.
      destruct d; [congruence | reflexivity]. }
  destruct (Extract_range_JSON nks c h Hkeys Hget c0) as (c' & HE & Hown & Hframe).
  exists h, c'. split; [|split; [|split]].
  - unfold Inject, propagatorRegister.Inject, bind, register.
    cbn [propagatorRegister.propagators]. now rewrite HI.
  - unfold Extract, propagatorRegister.Extract, bind, register.
    cbn [propagatorRegister.propagators]. now rewrite HE.
  - exact Hown.
  - exact Hframe.
Qed.

Lemma X20_JSON_register_round_trip_witness :
  exists h c',
    Inject (propagatorRegister.Build
              (map ValuePropagator.asPropagator
                 (@jsonPropagators examples.literals samples.strIntNames)))
      (Some samples.fooTrueChain) ∅ = Returns (None, h)
    /\ Extract (propagatorRegister.Build
                  (map ValuePropagator.asPropagator
                     (@jsonPropagators examples.literals samples.strIntNames)))
         (Some context.background) h = Returns ((Some c', None), h)
    /\ (forall nk, In nk samples.strIntNames ->
                   context.value samples.fooTrueChain (snd nk) <> Nil ->
                   context.value c' (snd nk) = context.value samples.fooTrueChain (snd nk))
    /\ (forall k, ~ In k (map snd samples.strIntNames)
                  \/ context.value samples.fooTrueChain k = Nil ->
                  context.value c' k = context.value context.background k).
Proof.
  refine (X20_JSON_register_round_trip (J := examples.literals) samples.strIntNames
            samples.fooTrueChain context.background _ _ _).
  - vm_compute. distinct.
  - vm_compute. distinct.
  - intros nk [<- | [<- | []]]; right.
    + exists examples.fooJSON. vm_compute. repeat split. discriminate.
    + exists (bytes_of_string "true"). vm_compute. repeat split. discriminate.
Defined.

(** ** The earlier layout, further *)

(** X23. In the earlier layout the package wraps every error of the
    register, an error of the package's own type included: whichever
    propagator fails, Inject returns it under the label of injection and
    Extract under the label of extraction, the text being the label, a
    colon and the text of the cause. *)
Theorem X23_V1_stage_error
  (pre post : list Propagator.t) (p : Propagator.t)
  (ctx : context.Context) (h h1 h2 : http.Header) (e : error)
  (pre' post' : list Propagator.t) (p' : Propagator.t)
  (ctx' ctx1 ctx2 : context.Context) (h' h1' h2' : http.Header) (e' : error) :
  propagatorRegister.Inject_range pre ctx h = Returns (None, h1) ->
  Propagator.Inject p ctx h1 = Returns (Some e, h2) ->
  propagatorRegister.Extract_range pre' ctx' h' = Returns ((ctx1, None), h1') ->
  Propagator.Extract p' ctx1 h1' = Returns ((ctx2, Some e'), h2') ->
  (V1.Inject (propagatorRegister.Build (pre ++ p :: post)) ctx h
     = Returns (Some (Error "inject context into header" e), h2)
   /\ Error_Error (Error "inject context into header" e)
      = ("inject context into header: " ++ Error_Error e)%string
   /\ has_label "inject context into header" (Error "inject context into header" e) = true)
  /\ (V1.Extract (propagatorRegister.Build (pre' ++ p' :: post')) ctx' h'
        = Returns ((None, Some (Error "extract context from header" e')), h2')
      /\ Error_Error (Error "extract context from header" e')
         = ("extract context from header: " ++ Error_Error e')%string
      /\ has_label "extract context from header" (Error "extract context from header" e') = true).
Proof.
  intros Hpre Hp Hpre' Hp'. split; (split; [|split; reflexivity]).
  - unfold V1.Inject, propagatorRegister.Inject, bind. cbn [propagatorRegister.propagators].
    rewrite (Inject_range_app pre (p :: post) ctx h h1 Hpre).
    now rewrite (Inject_range_cons_err p post ctx h1 h2 e Hp).
  - unfold V1.Extract, propagatorRegister.Extract, bind. cbn [propagatorRegister.propagators].
    rewrite (Extract_range_app pre' (p' :: post') ctx' ctx1 h' h1' Hpre').
    now rewrite (Extract_range_cons_err p' post' ctx1 ctx2 h1' h2' e' Hp').
Qed.

Lemma X23_V1_stage_error_witness :
  V1.Inject
    (propagatorRegister.Build
       ([V1.propagator.asPropagator examples.strPropagatorV1]
        ++ V1.propagator.asPropagator samples.encodePropagatorV1 :: [examples.panicking]))
    examples.fooEncodeCtx ∅
  = Returns (Some (Error "inject context into header" (errors.New "failed!")),
             examples.fooHeader)
  /\ V1.Extract
       (propagatorRegister.Build
          ([V1.propagator.asPropagator examples.strPropagatorV1]
           ++ V1.propagator.asPropagator examples.decodePropagatorV1 :: [examples.panicking]))
       context.Background examples.fooBarHeader
     = Returns ((None, Some (Error "extract context from header" (errors.New "failed!"))),
                examples.fooBarHeader).
Proof.
  refine (let H := X23_V1_stage_error
                     [V1.propagator.asPropagator examples.strPropagatorV1]
                     [examples.panicking]
                     (V1.propagator.asPropagator samples.encodePropagatorV1)
                     examples.fooEncodeCtx ∅ examples.fooHeader examples.fooHeader
                     (errors.New "failed!")
                     [V1.propagator.asPropagator examples.strPropagatorV1]
                     [examples.panicking]
                     (V1.propagator.asPropagator examples.decodePropagatorV1)
                     context.Background examples.fooCtx None
                     examples.fooBarHeader examples.fooBarHeader examples.fooBarHeader
                     (errors.New "failed!") _ _ _ _
          in conj (proj1 (proj1 H)) (proj1 (proj2 H))).
  - vm_compute. reflexivity.
  - vm_compute. reflexivity.
  - vm_compute. reflexivity.
  - vm_compute. reflexivity.
Defined.

(** X24. A field that is not base64, in the earlier layout: the
    propagator returns the nil context and the error of the base64 decoder
    as it is, a [CorruptInputError], the decoder of the propagator not
    being called; the package wraps it once under its label of
    extraction. *)
Theorem X24_V1_wire_format_failure
  (p : V1.propagator.t) (ctx : context.Context) (h : http.Header) (v : bytes) (e : error) :
  http.Header_Get h (headerKey (V1.propagator.name p)) <> "" ->
  base64.DecodeString (http.Header_Get h (headerKey (V1.propagator.name p))) = (v, Some e) ->
  exists offset,
    e = CorruptInputError offset
    /\ V1.propagator.Extract p ctx h = Returns ((None, Some (CorruptInputError offset)), h)
    /\ V1.Extract (propagatorRegister.Build [V1.propagator.asPropagator p]) ctx h
       = Returns ((None, Some (Error "extract context from header" (CorruptInputError offset))), h).
Proof.
  intros Hne Hdec. destruct (DecodeString_error_kind _ _ _ Hdec) as [offset ->].
  exists offset. split; [reflexivity|].
  pose proof (V1_Extract_wire_failure p ctx h v _ Hne Hdec) as HE.
  split; [exact HE|].
  unfold V1.Extract, propagatorRegister.Extract, bind.
  cbn [propagatorRegister.propagators propagatorRegister.Extract_range]. unfold bind.
  cbn [Propagator.Extract V1.propagator.asPropagator]. now rewrite HE.
Qed.

Lemma X24_V1_wire_format_failure_witness :
  exists offset,
    CorruptInputError 0 = CorruptInputError offset
    /\ V1.propagator.Extract examples.strPropagatorV1 context.Background examples.brokenHeader
       = Returns ((None, Some (CorruptInputError offset)), examples.brokenHeader)
    /\ V1.Extract
         (propagatorRegister.Build [V1.propagator.asPropagator examples.strPropagatorV1])
         context.Background examples.brokenHeader
       = Returns ((None, Some (Error "extract context from header"
                                 (CorruptInputError offset))),
                  examples.brokenHeader).
Proof.
  refine (X24_V1_wire_format_failure examples.strPropagatorV1 context.Background
            examples.brokenHeader [] (CorruptInputError 0) _ _).
  - vm_compute. discriminate.
  - vm_compute. reflexivity.
Defined.

(** X25. The JSON propagator of the earlier layout carries a value there
    and back: for a value that is not nil and that the JSON codec carries,
    Inject into the empty carrier sets the one field of the propagator, and
    Extract from that carrier into a context returns that context extended
    with the value under the key.  On the nil context Extract from that
    carrier panics. *)
Theorem X25_V1_JSON_round_trip `{J : json.Codec}
  (name : string) (key : Key) (c c0 : context.chain) (d : bytes) :
  context.value c key <> Nil ->
  json.Marshal (context.value c key) = (d, None) ->
  d <> [] ->
  json.Unmarshal d = (context.value c key, None) ->
  let p := V1.NewJSONPropagator name key in
  let h := http.Header_Set ∅ (headerKey name) (base64.EncodeToString d) in
  Propagator.Inject p (Some c) ∅ = Returns (None, h)
  /\ Propagator.Extract p (Some c0) h
     = Returns ((Some (context.valueCtx c0 key (context.value c key)), None), h)
  /\ Propagator.Extract p None h = Panics.
Proof.
  intros Hv Hm Hd Hu p h.
  destruct (wire_round_trip ∅ (headerKey name) d Hd) as [Hget Hdec]. fold h in Hget, Hdec.
  unfold p, V1.NewJSONPropagator, V1.NewPropagator.
  cbn [Propagator.Inject Propagator.Extract V1.propagator.asPropagator].
  split; [|split].
  - apply (V1_Inject_payload (V1.propagator.Build name key _ _)); [|exact Hd].
    cbn [V1.propagator.encoder V1.propagator.contextKey]. unfold EncoderFunc, V1.jsonEncoder.
    cbn [context.Value obind]. rewrite Hm. now destruct (context.value c key).
  - rewrite (V1_Extract_decoded (V1.propagator.Build name key _ _) (Some c0) h d Hget Hdec).
    cbn [V1.propagator.decoder V1.propagator.contextKey]. unfold DecoderFunc, V1.jsonDecoder.
    now rewrite Hu.
  - rewrite (V1_Extract_decoded (V1.propagator.Build name key _ _) None h d Hget Hdec).
    cbn [V1.propagator.decoder V1.propagator.contextKey]. unfold DecoderFunc, V1.jsonDecoder.
    now rewrite Hu.
Qed.

Lemma X25_V1_JSON_round_trip_witness :
  Propagator.Inject (@V1.NewJSONPropagator examples.literals "str" "strKey")
    examples.fooCtx ∅
  = Returns (None, examples.fooHeader)
  /\ Propagator.Extract (@V1.NewJSONPropagator examples.literals "str" "strKey")
       context.Background examples.fooHeader
     = Returns ((examples.fooCtx, None), examples.fooHeader)
  /\ Propagator.Extract (@V1.NewJSONPropagator examples.literals "str" "strKey")
       None examples.fooHeader
     = Panics.
Proof.
  refine (X25_V1_JSON_round_trip (J := examples.literals) "str" "strKey"
            (context.valueCtx context.background "strKey" (Str "foo")) context.background
            examples.fooJSON _ _ _ _).
  - vm_compute. discriminate.
  - vm_compute. reflexivity.
  - vm_compute. discriminate.
  - vm_compute. reflexivity.
Defined.
